(** * opcodes/x86_64.py: the instruction-set model and its loader

    A shallow embedding of [read_instruction_set] and of the classes it
    instantiates.  The XML document is an [Element] tree as ElementTree hands
    it over (tag, attribute dictionary, child elements); Python exceptions are
    an error type; the function's local variable [rex], which outlives the
    loop iteration that assigns it, and the text written by [print] are
    threaded as explicit state. *)

From stdpp Require Import gmap strings list fin_maps.
From Stdlib Require Import ZArith Ascii String Lia.

Open Scope string_scope.
Open Scope Z_scope.

(** ** Python primitives *)

(** The exceptions the loader can raise. *)
Inductive exn : Type :=
| AssertionError
| KeyError
| ValueError
| IndexError
| TypeError
| UnboundLocalError.

(** A computation that does not touch the local frame: a value or a raise. *)
Definition result (A : Type) : Type := exn + A.

Definition ok {A} (a : A) : result A := inr a.
Definition raise {A} (e : exn) : result A := inl e.

Definition rbind {A B} (r : result A) (k : A -> result B) : result B :=
  match r with
  | inl e => inl e
  | inr a => k a
  end.

Declare Scope result_scope.
Delimit Scope result_scope with result.
Notation "x <- r ; k" := (rbind r (fun x => k))
  (at level 100, r at next level, right associativity) : result_scope.
Notation "r ;; k" := (rbind r (fun _ => k))
  (at level 100, right associativity) : result_scope.
Open Scope result_scope.

(** [assert b] *)
Definition assert (b : bool) : result unit :=
  if b then ok tt else raise AssertionError.

(** [d[k]] on a dictionary: [KeyError] when the key is missing. *)
Definition getitem {V} (d : gmap string V) (k : string) : result V :=
  match d !! k with
  | Some v => ok v
  | None => raise KeyError
  end.

(** [k in d] *)
Definition contains {V} (d : gmap string V) (k : string) : bool :=
  bool_decide (is_Some (d !! k)).

(** [{"true": True, "false": False}[s]] *)
Definition bool_of_attr (s : string) : result bool :=
  getitem (<["true" := true]> (<["false" := false]> ∅)) s.

(** *** [int(s, base)] on a string

    Python 3 grammar, on ASCII text: surrounding whitespace is dropped, one
    sign is allowed, base 16 and base 2 accept their [0x] / [0b] prefix, and
    single underscores may separate digits.  Two things of the builtin are
    outside this function.  It reads the decimal digits and the spaces of
    all of Unicode, where [parse_int] refuses every character that is not
    ASCII: a text that [parse_int] reads is read alike by the builtin, and a
    text that [parse_int] refuses is refused by the builtin when it is ASCII
    ([ascii_only]).  And an interpreter may refuse a decimal text for its
    number of digits, above a limit that cannot be set below 640
    ([within_digit_limit]). *)

Definition is_space (c : ascii) : bool :=
  let n := Z.of_N (N_of_ascii c) in
  (n =? 32) || ((9 <=? n) && (n <=? 13)).

Definition digit_value (c : ascii) : option Z :=
  let n := Z.of_N (N_of_ascii c) in
  if (48 <=? n) && (n <=? 57) then Some (n - 48)
  else if (97 <=? n) && (n <=? 122) then Some (n - 87)
  else if (65 <=? n) && (n <=? 90) then Some (n - 55)
  else None.

Fixpoint lstrip (s : string) : string :=
  match s with
  | String c s' => if is_space c then lstrip s' else s
  | EmptyString => EmptyString
  end.

Fixpoint all_space (s : string) : bool :=
  match s with
  | String c s' => is_space c && all_space s'
  | EmptyString => true
  end.

(** The digit scan: [prev] tells whether the previous character was a digit
    (an underscore is only legal after one, and the text may not end on an
    underscore or be empty).  At the first character that is neither a digit
    of the base nor an underscore, only whitespace may follow. *)
Fixpoint scan_digits (base acc : Z) (prev : bool) (s : string) : option Z :=
  match s with
  | EmptyString => if prev then Some acc else None
  | String c s' =>
      if Ascii.eqb c "_" then
        if prev then scan_digits base acc false s' else None
      else
        match digit_value c with
        | Some d =>
            if d <? base then scan_digits base (acc * base + d) true s'
            else if prev && all_space s then Some acc else None
        | None => if prev && all_space s then Some acc else None
        end
  end.

Definition skip_prefix (base : Z) (s : string) : string :=
  match s with
  | String "0" (String c s') =>
      if ((base =? 16) && (Ascii.eqb c "x" || Ascii.eqb c "X"))
         || ((base =? 2) && (Ascii.eqb c "b" || Ascii.eqb c "B"))
      then match s' with
           | String "_" s'' => s''
           | _ => s'
           end
      else s
  | _ => s
  end.

Definition parse_int (base : Z) (s : string) : option Z :=
  match lstrip s with
  | String "-" s' => Z.opp <$> scan_digits base 0 false (skip_prefix base s')
  | String "+" s' => scan_digits base 0 false (skip_prefix base s')
  | s' => scan_digits base 0 false (skip_prefix base s')
  end.

(** [int(s, base)]: [ValueError] on text that is not a number. *)
Definition int_base (s : string) (base : Z) : result Z :=
  match parse_int base s with
  | Some z => ok z
  | None => raise ValueError
  end.

(** [int(s)] *)
Definition int_str (s : string) : result Z := int_base s 10.

(** The text has ASCII characters only. *)
Fixpoint ascii_only (s : string) : bool :=
  match s with
  | EmptyString => true
  | String c s' => (Z.of_N (N_of_ascii c) <? 128) && ascii_only s'
  end.

(** The text is no longer than the least limit on digits that an interpreter
    can have. *)
Definition within_digit_limit (s : string) : Prop := (String.length s <= 640)%nat.

(** [l[i]] on a list, as a position: Python counts a negative index from the
    end, and raises [IndexError] outside [-len(l) .. len(l) - 1]. *)
Definition index_position {A} (l : list A) (i : Z) : result nat :=
  let n := Z.of_nat (List.length l) in
  if (0 <=? i) && (i <? n) then ok (Z.to_nat i)
  else if (- n <=? i) && (i <? 0) then ok (Z.to_nat (n + i))
  else raise IndexError.

(** ** The XML document *)

(** An element as [xml.etree.ElementTree] presents it. *)
#[warnings="-register-all"] Inductive Element : Type :=
  mkElement (tag : string) (attrib : gmap string string) (children : list Element).

Definition tag (x : Element) : string :=
  match x with mkElement t _ _ => t end.
Definition attrib (x : Element) : gmap string string :=
  match x with mkElement _ a _ => a end.
Definition children (x : Element) : list Element :=
  match x with mkElement _ _ c => c end.

Definition has_tag (t : string) (x : Element) : bool := String.eqb (tag x) t.

(** [x.findall("outer/inner")]: the [inner] children of the [outer] children,
    in document order. *)
Definition findall (outer inner : string) (x : Element) : list Element :=
  List.concat
    (List.map (fun y => List.filter (has_tag inner) (children y))
              (List.filter (has_tag outer) (children x))).

(** ** The model classes *)

(** What a field of a component can hold: [None], an integer, or a reference
    to one of the operands of the owning form, kept as its position in
    [InstructionForm.operands]. *)
Inductive value : Type :=
| PyNone
| PyInt (z : Z)
| OperandRef (k : nat).

Module Operand.
Record t : Type := mk { type : string; is_input : bool; is_output : bool }.

Definition is_variable (o : t) : bool := is_input o || is_output o.

Definition is_register (o : t) : bool :=
  bool_decide (type o ∈ ["al"; "cl"; "ax"; "eax"; "rax"; "xmm0"; "r8"; "r16";
                         "r32"; "r64"; "r8l"; "r16l"; "r32l"; "mm"; "xmm"; "ymm"]).

Definition is_memory (o : t) : bool :=
  bool_decide (type o ∈ ["m"; "m8"; "m16"; "m32"; "m64"; "m80"; "m128";
                         "m256"; "m512"]).
End Operand.

Module ISAExtension.
Record t : Type := mk { name : string }.
End ISAExtension.

Module Prefix.
Record t : Type := mk { byte : Z; is_mandatory : bool }.
End Prefix.

Module REX.
Record t : Type := mk { is_mandatory : bool; W : value; R : value; X : value; B : value }.
End REX.

Module VEX.
Record t : Type :=
  mk { mmmmm : Z; pp : Z; W : value; L : value; R : value; X : value;
       B : value; vvvv : value }.
End VEX.

Module Opcode.
Record t : Type := mk { byte : Z; addend : value }.
End Opcode.

Module ModRM.
Record t : Type := mk { mode : value; rm : value; reg : value }.
End ModRM.

(** One element of [Encoding.components]. *)
Inductive Component : Type :=
| APrefix (p : Prefix.t)
| AREX (r : REX.t)
| AVEX (v : VEX.t)
| AnOpcode (o : Opcode.t)
| AModRM (m : ModRM.t)
| ImmediateByte (byte : value)
| ImmediateWord (word : value)
| ImmediateDWord (dword : value)
| ImmediateQWord (qword : value)
| CodeOffset32 (offset : value)
| CodeOffset8 (offset : value)
| DataOffset32 (offset : value)
| DataOffset64 (offset : value).

Module Encoding.
Record t : Type := mk { components : list Component }.
End Encoding.

Module InstructionForm.
Record t : Type :=
  mk { name : string;
       gas_name : option string;
       go_name : option string;
       mmx_mode : option string;
       xmm_mode : option string;
       operands : list Operand.t;
       implicit_inputs : gset string;
       implicit_outputs : gset string;
       isa_extensions : list ISAExtension.t;
       encodings : list Encoding.t }.
End InstructionForm.

Module Instruction.
Record t : Type :=
  mk { name : string; summary : option string; forms : list InstructionForm.t }.
End Instruction.

(** ** The local frame of [read_instruction_set] *)

(** [rex_var] is the local variable [rex]: unbound until the first REX
    component has been read, and then the last REX object built, whatever
    encoding, form or instruction it belonged to.  [stdout] is what [print]
    has written. *)
Record frame : Type := mkFrame { rex_var : option REX.t; stdout : list string }.

(** A raise leaves the function, so only the printed text survives it. *)
Inductive outcome (A : Type) : Type :=
| Raised (e : exn) (out : list string)
| Returned (a : A) (f : frame).
Arguments Raised {A} e out.
Arguments Returned {A} a f.

Definition M (A : Type) : Type := frame -> outcome A.

Definition ret {A} (a : A) : M A := fun f => Returned a f.

Definition bind {A B} (m : M A) (k : A -> M B) : M B :=
  fun f => match m f with
           | Raised e out => Raised e out
           | Returned a f' => k a f'
           end.

Definition lift {A} (r : result A) : M A :=
  fun f => match r with
           | inl e => Raised e (stdout f)
           | inr a => Returned a f
           end.

Definition print (s : string) : M unit :=
  fun f => Returned tt (mkFrame (rex_var f) (stdout f ++ [s])%list).

Definition set_rex (r : REX.t) : M unit :=
  fun f => Returned tt (mkFrame (Some r) (stdout f)).

Definition get_rex : M (option REX.t) := fun f => Returned (rex_var f) f.

Declare Scope frame_scope.
Delimit Scope frame_scope with frame.
Notation "x <- m ; k" := (bind m (fun x => k))
  (at level 100, m at next level, right associativity) : frame_scope.
Notation "m ;; k" := (bind m (fun _ => k))
  (at level 100, right associativity) : frame_scope.

(** A [for] loop whose body appends to a list: each round yields what it
    appended. *)
Fixpoint for_in {A B} (body : A -> M (list B)) (xs : list A) : M (list B) :=
  match xs with
  | [] => ret []
  | x :: xs' =>
      (ys <- body x; zs <- for_in body xs'; ret (ys ++ zs)%list)%frame
  end.

(** The same loop for a body that cannot touch the frame. *)
Fixpoint for_each {A B} (body : A -> result B) (xs : list A) : result (list B) :=
  match xs with
  | [] => ok []
  | x :: xs' => y <- body x; ys <- for_each body xs'; ok (y :: ys)
  end.

(** ** Reading one encoding component *)

Section Components.

(** [instruction_form.operands], complete before any encoding is read. *)
Variable operands : list Operand.t.

(** [instruction_form.operands[int(s)]] *)
Definition operand_at (s : string) : result value :=
  i <- int_str s;
  k <- index_position operands i;
  ok (OperandRef k).

(** [v = s; if v == "ignored": v = None else: v = int(v)] *)
Definition bit_literal (s : string) : result value :=
  if String.eqb s "ignored" then ok PyNone
  else z <- int_str s; ok (PyInt z).

(** [int(v)] on a field of an object: only an integer converts. *)
Definition int_value (v : value) : result Z :=
  match v with
  | PyInt z => ok z
  | PyNone | OperandRef _ => raise TypeError
  end.

Definition read_Prefix (a : gmap string string) : result Prefix.t :=
  m <- getitem a "mandatory";
  is_mandatory <- bool_of_attr m;
  b <- getitem a "byte";
  byte <- int_base b 16;
  assert (bool_decide (byte ∈ [102; 242; 243]));;
  ok (Prefix.mk byte is_mandatory).

Definition read_REX (a : gmap string string) : result REX.t :=
  assert (contains a "mandatory");;
  m <- getitem a "mandatory";
  is_mandatory <- bool_of_attr m;
  assert (contains a "W");;
  w <- getitem a "W";
  W <- bit_literal w;
  R <- (if contains a "R" then
          assert (negb (contains a "R-operand-number"));;
          r <- getitem a "R";
          bit_literal r
        else
          assert (contains a "R-operand-number");;
          n <- getitem a "R-operand-number";
          operand_at n);
  B <- (if contains a "B" then
          assert (negb (contains a "B-operand-number"));;
          assert (negb (contains a "BX-operand-number"));;
          b <- getitem a "B";
          bit_literal b
        else if contains a "B-operand-number" then
          assert (negb (contains a "B"));;
          assert (negb (contains a "BX-operand-number"));;
          n <- getitem a "B-operand-number";
          operand_at n
        else
          assert (contains a "BX-operand-number");;
          assert (negb (contains a "B-operand-number"));;
          assert (negb (contains a "B"));;
          assert (negb (contains a "X"));;
          n <- getitem a "BX-operand-number";
          operand_at n);
  X <- (if contains a "X" then
          assert (negb (contains a "BX-operand-number"));;
          x <- getitem a "X";
          bit_literal x
        else
          assert (contains a "BX-operand-number");;
          n <- getitem a "BX-operand-number";
          operand_at n);
  ok (REX.mk is_mandatory W R X B).

(** The VEX branch.  [rex] is the function's local variable as the frame has
    it when the component is read: lines 660 and 672 of the source convert
    [rex.R] and [rex.B], not the attribute just read into [vex.R] and
    [vex.B]. *)
Definition read_VEX (rex : option REX.t) (a : gmap string string) : result VEX.t :=
  assert (contains a "W");;
  w <- getitem a "W";
  W <- bit_literal w;
  assert (contains a "L");;
  l <- getitem a "L";
  L <- bit_literal l;
  m <- getitem a "m-mmmm";
  mmmmm <- int_base m 2;
  p <- getitem a "pp";
  pp <- int_base p 2;
  R <- (if contains a "R" then
          assert (negb (contains a "R-operand-number"));;
          r <- getitem a "R";
          if String.eqb r "ignored" then ok PyNone
          else
            match rex with
            | None => raise UnboundLocalError
            | Some rex => z <- int_value (REX.R rex); ok (PyInt z)
            end
        else
          assert (contains a "R-operand-number");;
          n <- getitem a "R-operand-number";
          operand_at n);
  B <- (if contains a "B" then
          assert (negb (contains a "B-operand-number"));;
          assert (negb (contains a "BX-operand-number"));;
          b <- getitem a "B";
          if String.eqb b "ignored" then ok PyNone
          else
            match rex with
            | None => raise UnboundLocalError
            | Some rex => z <- int_value (REX.B rex); ok (PyInt z)
            end
        else if contains a "B-operand-number" then
          assert (negb (contains a "B"));;
          assert (negb (contains a "BX-operand-number"));;
          n <- getitem a "B-operand-number";
          operand_at n
        else
          assert (contains a "BX-operand-number");;
          assert (negb (contains a "B-operand-number"));;
          assert (negb (contains a "B"));;
          assert (negb (contains a "X"));;
          n <- getitem a "BX-operand-number";
          operand_at n);
  X <- (if contains a "X" then
          assert (negb (contains a "BX-operand-number"));;
          x <- getitem a "X";
          bit_literal x
        else
          assert (contains a "BX-operand-number");;
          n <- getitem a "BX-operand-number";
          operand_at n);
  vvvv <- (if contains a "vvvv" then
             assert (negb (contains a "vvvv-operand-number"));;
             v <- getitem a "vvvv";
             assert (String.eqb v "1111");;
             z <- int_base v 2;
             ok (PyInt z)
           else
             assert (contains a "vvvv-operand-number");;
             n <- getitem a "vvvv-operand-number";
             operand_at n);
  ok (VEX.mk mmmmm pp W L R X B vvvv).

Definition read_Opcode (a : gmap string string) : result Opcode.t :=
  b <- getitem a "byte";
  byte <- int_base b 16;
  addend <- (if contains a "addend-operand-number" then
               n <- getitem a "addend-operand-number";
               operand_at n
             else ok PyNone);
  ok (Opcode.mk byte addend).

Definition read_ModRM (a : gmap string string) : result ModRM.t :=
  mode <- (if contains a "mode" then
             m <- getitem a "mode";
             z <- int_base m 2;
             assert (z =? 3);;
             ok (PyInt z)
           else
             assert (contains a "mode-operand-number");;
             m <- getitem a "mode-operand-number";
             r <- getitem a "rm-operand-number";
             assert (String.eqb m r);;
             operand_at m);
  reg <- (if contains a "reg" then
            r <- getitem a "reg";
            z <- int_str r;
            assert ((0 <=? z) && (z <=? 7));;
            ok (PyInt z)
          else
            assert (contains a "reg-operand-number");;
            n <- getitem a "reg-operand-number";
            operand_at n);
  assert (contains a "rm-operand-number");;
  n <- getitem a "rm-operand-number";
  rm <- operand_at n;
  ok (ModRM.mk mode rm reg).

Definition read_Immediate (a : gmap string string) : result Component :=
  assert (contains a "size");;
  s <- getitem a "size";
  immediate_size <- int_str s;
  assert (bool_decide (immediate_size ∈ [1; 2; 4; 8]));;
  if immediate_size =? 1 then
    if contains a "operand-number" then
      n <- getitem a "operand-number";
      o <- operand_at n;
      ok (ImmediateByte o)
    else raise AssertionError
  else if immediate_size =? 2 then
    assert (contains a "operand-number");;
    n <- getitem a "operand-number";
    o <- operand_at n;
    ok (ImmediateWord o)
  else if immediate_size =? 4 then
    assert (contains a "operand-number");;
    n <- getitem a "operand-number";
    o <- operand_at n;
    ok (ImmediateDWord o)
  else if immediate_size =? 8 then
    assert (contains a "operand-number");;
    n <- getitem a "operand-number";
    o <- operand_at n;
    ok (ImmediateQWord o)
  else raise AssertionError.

Definition read_CodeOffset (a : gmap string string) : result Component :=
  s <- getitem a "size";
  offset_size <- int_str s;
  assert (bool_decide (offset_size ∈ [1; 4]));;
  if offset_size =? 1 then
    n <- getitem a "operand-number";
    o <- operand_at n;
    ok (CodeOffset8 o)
  else if offset_size =? 4 then
    n <- getitem a "operand-number";
    o <- operand_at n;
    ok (CodeOffset32 o)
  else raise AssertionError.

Definition read_DataOffset (a : gmap string string) : result Component :=
  s <- getitem a "size";
  offset_size <- int_str s;
  assert (bool_decide (offset_size ∈ [4; 8]));;
  if offset_size =? 4 then
    n <- getitem a "operand-number";
    o <- operand_at n;
    ok (DataOffset32 o)
  else if offset_size =? 8 then
    n <- getitem a "operand-number";
    o <- operand_at n;
    ok (DataOffset64 o)
  else raise AssertionError.

(** The tags the [if]/[elif] chain of the loop body knows. *)
Definition known_tags : list string :=
  ["Prefix"; "REX"; "VEX"; "Opcode"; "ModRM"; "Immediate"; "CodeOffset";
   "DataOffset"].

Definition known_tag (x : Element) : bool := bool_decide (tag x ∈ known_tags).

(** The body of [for xml_component in xml_encoding]: what it appends to
    [encoding.components]. *)
Definition read_component (x : Element) : M (list Component) :=
  (if has_tag "Prefix" x then
     p <- lift (read_Prefix (attrib x)); ret [APrefix p]
   else if has_tag "REX" x then
     r <- lift (read_REX (attrib x)); set_rex r;; ret [AREX r]
   else if has_tag "VEX" x then
     rex <- get_rex; v <- lift (read_VEX rex (attrib x)); ret [AVEX v]
   else if has_tag "Opcode" x then
     o <- lift (read_Opcode (attrib x)); ret [AnOpcode o]
   else if has_tag "ModRM" x then
     m <- lift (read_ModRM (attrib x)); ret [AModRM m]
   else if has_tag "Immediate" x then
     c <- lift (read_Immediate (attrib x)); ret [c]
   else if has_tag "CodeOffset" x then
     c <- lift (read_CodeOffset (attrib x)); ret [c]
   else if has_tag "DataOffset" x then
     c <- lift (read_DataOffset (attrib x)); ret [c]
   else
     print ("Unknown encoding tag: " ++ tag x);; ret [])%frame.

(** [for xml_encoding in ...findall("Encodings/Encoding")], one round. *)
Definition read_encoding (x : Element) : M (list Encoding.t) :=
  (components <- for_in read_component (children x);
   ret [Encoding.mk components])%frame.

End Components.

(** ** Reading forms, instructions and the document *)

(** The body of [for xml_operand in ...findall("Operands/Operand")]. *)
Definition read_operand (x : Element) : result Operand.t :=
  type <- getitem (attrib x) "type";
  is_input <- bool_of_attr (default "false" (attrib x !! "input"));
  is_output <- bool_of_attr (default "false" (attrib x !! "output"));
  ok (Operand.mk type is_input is_output).

(** [for xml_implicit_operand in ...findall("Operands/ImplicitOperands")],
    on the two sets it grows. *)
Fixpoint read_implicit_operands (xs : list Element) (inputs outputs : gset string)
  : result (gset string * gset string) :=
  match xs with
  | [] => ok (inputs, outputs)
  | x :: xs' =>
      i <- getitem (attrib x) "input";
      inputs' <- (if String.eqb i "true" then
                    id <- getitem (attrib x) "id"; ok (inputs ∪ {[id]})
                  else ok inputs);
      o <- getitem (attrib x) "output";
      outputs' <- (if String.eqb o "true" then
                     id <- getitem (attrib x) "id"; ok (outputs ∪ {[id]})
                   else ok outputs);
      read_implicit_operands xs' inputs' outputs'
  end.

(** The body of [for xml_isa_extension in ...findall("ISA/Extension")]. *)
Definition read_isa_extension (x : Element) : result ISAExtension.t :=
  assert (contains (attrib x) "id");;
  id <- getitem (attrib x) "id";
  ok (ISAExtension.mk id).

(** The body of [for xml_instruction_form in xml_instruction]. *)
Definition read_instruction_form (name : string) (x : Element)
  : M (list InstructionForm.t) :=
  (gas_name <- lift (getitem (attrib x) "gas-name");
   let go_name := attrib x !! "go-name" in
   let mmx_mode := attrib x !! "mmx-mode" in
   let xmm_mode := attrib x !! "xmm-mode" in
   operands <- lift (for_each read_operand (findall "Operands" "Operand" x));
   implicit <- lift (read_implicit_operands
                       (findall "Operands" "ImplicitOperands" x) ∅ ∅);
   isa_extensions <- lift (for_each read_isa_extension (findall "ISA" "Extension" x));
   encodings <- for_in (read_encoding operands) (findall "Encodings" "Encoding" x);
   ret [InstructionForm.mk name (Some gas_name) go_name mmx_mode xmm_mode
          operands (fst implicit) (snd implicit) isa_extensions encodings])%frame.

(** The body of [for xml_instruction in xml_instruction_set]. *)
Definition read_instruction (x : Element) : M (list Instruction.t) :=
  (lift (assert (has_tag "Instruction" x));;
   name <- lift (getitem (attrib x) "name");
   summary <- lift (getitem (attrib x) "summary");
   forms <- for_in (read_instruction_form name) (children x);
   ret [Instruction.mk name (Some summary) forms])%frame.

(** [read_instruction_set], on the root element of the parsed file. *)
Definition read_instruction_set (root : Element) : M (list Instruction.t) :=
  (lift (assert (has_tag "InstructionSet" root));;
   name <- lift (getitem (attrib root) "name");
   lift (assert (String.eqb name "x86-64"));;
   for_in read_instruction (children root))%frame.

(** A call: [rex] is unbound and nothing has been printed. *)
Definition entry : frame := mkFrame None [].

Definition load (root : Element) : outcome (list Instruction.t) :=
  read_instruction_set root entry.

(** ** Well-formedness of a loaded model *)

(** A field that refers to an operand refers to one of the [n] operands. *)
Definition value_in_bounds (n : nat) (v : value) : Prop :=
  match v with
  | OperandRef k => (k < n)%nat
  | _ => True
  end.

(** The fields of a component, whatever they hold. *)
Definition fields (c : Component) : list value :=
  match c with
  | APrefix _ => []
  | AREX r => [REX.W r; REX.R r; REX.X r; REX.B r]
  | AVEX v => [VEX.W v; VEX.L v; VEX.R v; VEX.X v; VEX.B v; VEX.vvvv v]
  | AnOpcode o => [Opcode.addend o]
  | AModRM m => [ModRM.mode m; ModRM.rm m; ModRM.reg m]
  | ImmediateByte v | ImmediateWord v | ImmediateDWord v | ImmediateQWord v
  | CodeOffset32 v | CodeOffset8 v | DataOffset32 v | DataOffset64 v => [v]
  end.

Definition component_in_bounds (n : nat) (c : Component) : Prop :=
  Forall (value_in_bounds n) (fields c).

Definition form_in_bounds (f : InstructionForm.t) : Prop :=
  Forall (fun e => Forall (component_in_bounds (List.length (InstructionForm.operands f)))
                          (Encoding.components e))
         (InstructionForm.encodings f).

Definition model_in_bounds (model : list Instruction.t) : Prop :=
  Forall (fun i => Forall form_in_bounds (Instruction.forms i)) model.

(** ** Test documents *)

Definition attrs (l : list (string * string)) : gmap string string := list_to_map l.

Definition node (t : string) (l : list (string * string)) (c : list Element) : Element :=
  mkElement t (attrs l) c.

(** A document with one instruction of one form. *)
Definition document (form_attrs : list (string * string))
  (operand_types : list string) (components : list Element) : Element :=
  node "InstructionSet" [("name", "x86-64")]
    [node "Instruction" [("name", "OP"); ("summary", "An operation")]
       [node "InstructionForm" form_attrs
          [node "Operands" []
             (List.map (fun t => node "Operand" [("type", t)] []) operand_types);
           node "Encodings" [] [node "Encoding" [] components]]]].

(** The model [document] loads to, when it loads. *)
Definition loaded (gas_name : string) (operands : list Operand.t)
  (components : list Component) : list Instruction.t :=
  [Instruction.mk "OP" (Some "An operation")
     [InstructionForm.mk "OP" (Some gas_name) None None None operands ∅ ∅ []
        [Encoding.mk components]]].

Definition plain (type : string) : Operand.t := Operand.mk type false false.

(** ** Outcomes *)

Definition failed {A} (r : result A) : Prop :=
  match r with
  | inl _ => True
  | inr _ => False
  end.

Definition aborted {A} (o : outcome A) : Prop :=
  match o with
  | Raised _ _ => True
  | Returned _ _ => False
  end.


(** [x] is a component declaration of the document. *)
Definition component_of (root x : Element) : Prop :=
  ∃ i f e, i ∈ children root ∧ f ∈ children i ∧
           e ∈ findall "Encodings" "Encoding" f ∧ x ∈ children e.

(** [x] is a component declaration of the document, in a form whose operand
    declarations read as [operands]. *)
Definition declares (root : Element) (operands : list Operand.t) (x : Element) : Prop :=
  ∃ i f e, i ∈ children root ∧ f ∈ children i ∧
           for_each read_operand (findall "Operands" "Operand" f) = ok operands ∧
           e ∈ findall "Encodings" "Encoding" f ∧ x ∈ children e.

(** The operand-position attributes each branch of the loop body looks up,
    given which attributes the declaration has. *)
Definition linked_REX (a : gmap string string) : list string :=
  (if contains a "R" then [] else ["R-operand-number"])
  ++ (if contains a "B" then []
      else if contains a "B-operand-number" then ["B-operand-number"]
      else ["BX-operand-number"])
  ++ (if contains a "X" then [] else ["BX-operand-number"]).

Definition linked_VEX (a : gmap string string) : list string :=
  linked_REX a ++ (if contains a "vvvv" then [] else ["vvvv-operand-number"]).

Definition linked_Opcode (a : gmap string string) : list string :=
  if contains a "addend-operand-number" then ["addend-operand-number"] else [].

Definition linked_ModRM (a : gmap string string) : list string :=
  (if contains a "mode" then [] else ["mode-operand-number"])
  ++ (if contains a "reg" then [] else ["reg-operand-number"])
  ++ ["rm-operand-number"].

Definition linked_attributes (x : Element) : list string :=
  if has_tag "Prefix" x then []
  else if has_tag "REX" x then linked_REX (attrib x)
  else if has_tag "VEX" x then linked_VEX (attrib x)
  else if has_tag "Opcode" x then linked_Opcode (attrib x)
  else if has_tag "ModRM" x then linked_ModRM (attrib x)
  else if has_tag "Immediate" x then ["operand-number"]
  else if has_tag "CodeOffset" x then ["operand-number"]
  else if has_tag "DataOffset" x then ["operand-number"]
  else [].

(** Attribute [k] is there and its integer is an index Python accepts on a
    list of [n] items. *)
Definition names_position (n : nat) (a : gmap string string) (k : string) : Prop :=
  ∃ s i, a !! k = Some s ∧ int_str s = ok i ∧ - Z.of_nat n <= i < Z.of_nat n.


(** What the ModRM branch refuses: a mode literal that is an integer other
    than [0b11], or an ASCII text that is no integer in base 2; a linked mode
    whose attribute differs from the one of rm; a reg literal that is an
    integer outside [0 .. 7], or an ASCII text that is no integer. *)
Definition ModRM_violation (a : gmap string string) : Prop :=
  (∃ m, a !! "mode" = Some m
        ∧ ((ascii_only m = true ∧ int_base m 2 = raise ValueError)
           ∨ ∃ z, int_base m 2 = ok z ∧ z ≠ 3))
  ∨ (a !! "mode" = None ∧ a !! "mode-operand-number" ≠ a !! "rm-operand-number")
  ∨ (∃ r, a !! "reg" = Some r
          ∧ ((ascii_only r = true ∧ int_str r = raise ValueError)
             ∨ ∃ z, int_str r = ok z ∧ ¬ (0 <= z <= 7))).

(** Attribute [k] cannot link to one of [n] operands: it is missing, or it is
    an ASCII text that is no integer, or its integer is no index Python
    accepts on a list of [n] items. *)
Definition bad_link (n : nat) (a : gmap string string) (k : string) : Prop :=
  a !! k = None
  ∨ ∃ s, a !! k = Some s
         ∧ ((ascii_only s = true ∧ int_str s = raise ValueError)
            ∨ ∃ i, int_str s = ok i ∧ (i < - Z.of_nat n ∨ Z.of_nat n <= i)).

(** The size attribute is missing, or it is an ASCII text that is no integer,
    or its integer is none of [sizes]. *)
Definition size_refused (sizes : list Z) (a : gmap string string) : Prop :=
  a !! "size" = None
  ∨ ∃ s, a !! "size" = Some s
         ∧ ((ascii_only s = true ∧ int_str s = raise ValueError)
            ∨ ∃ z, int_str s = ok z ∧ z ∉ sizes).

(** The two numerals of a width-keyed declaration are within the digit
    limit. *)
Definition numerals_within_limit (a : gmap string string) : Prop :=
  ∀ k s, k ∈ ["size"; "operand-number"] → a !! k = Some s → within_digit_limit s.

(** [int(a["size"])] *)
Definition declared_size (a : gmap string string) : result Z :=
  s <- getitem a "size"; int_str s.

(** [operands[int(a["operand-number"])]] *)
Definition declared_operand (operands : list Operand.t) (a : gmap string string)
  : result value :=
  n <- getitem a "operand-number"; operand_at operands n.

(** What the REX branch refuses about B and X: the combined link together
    with an attribute of B or of X, or nothing at all for B. *)
Definition REX_violation (a : gmap string string) : Prop :=
  (contains a "BX-operand-number" = true
   ∧ (contains a "B" = true ∨ contains a "X" = true
      ∨ contains a "B-operand-number" = true))
  ∨ (contains a "B" = false ∧ contains a "B-operand-number" = false
     ∧ contains a "BX-operand-number" = false).



(** The line [print] writes for a declaration the loop body does not know. *)
Definition unknown_tag_line (x : Element) : string := "Unknown encoding tag: " ++ tag x.


(** The operand a field refers to, if it refers to one. *)
Definition referenced (operands : list Operand.t) (v : value) : option Operand.t :=
  match v with
  | OperandRef k => operands !! k
  | _ => None
  end.

(** The same declaration with attribute [k] left out. *)
Definition without_attribute (k : string) (x : Element) : Element :=
  mkElement (tag x) (delete k (attrib x)) (children x).

Definition with_go_name (go_name : option string) (fm : InstructionForm.t)
  : InstructionForm.t :=
  InstructionForm.mk (InstructionForm.name fm) (InstructionForm.gas_name fm) go_name
    (InstructionForm.mmx_mode fm) (InstructionForm.xmm_mode fm)
    (InstructionForm.operands fm) (InstructionForm.implicit_inputs fm)
    (InstructionForm.implicit_outputs fm) (InstructionForm.isa_extensions fm)
    (InstructionForm.encodings fm).

Definition on_value {A B} (g : A -> B) (o : outcome A) : outcome B :=
  match o with
  | Raised e out => Raised e out
  | Returned a f => Returned (g a) f
  end.

(** A VEX declaration with literal R, B and X after a REX declaration with
    other literals, in one encoding. *)
Definition vex_after_rex_document : Element :=
  document [("gas-name", "vop")] []
    [node "REX" [("mandatory", "false"); ("W", "0"); ("R", "0"); ("B", "0");
                 ("X", "0")] [];
     node "VEX" [("W", "0"); ("L", "0"); ("m-mmmm", "00001"); ("pp", "00");
                 ("R", "1"); ("B", "1"); ("X", "1"); ("vvvv", "1111")] []].

(** The same VEX declaration in a document without any REX declaration. *)
Definition vex_alone_document : Element :=
  document [("gas-name", "vop")] []
    [node "VEX" [("W", "0"); ("L", "0"); ("m-mmmm", "00001"); ("pp", "00");
                 ("R", "1"); ("B", "1"); ("X", "1"); ("vvvv", "1111")] []].

(** An opcode byte of three hexadecimal digits, with a memory operand as the
    addend. *)
Definition wide_opcode_document : Element :=
  document [("gas-name", "op")] ["m32"]
    [node "Opcode" [("byte", "1FF"); ("addend-operand-number", "0")] []].

(** A VEX declaration whose m-mmmm is 0b00100 and whose pp is 0b111. *)
Definition vex_class_document : Element :=
  document [("gas-name", "vop")] ["xmm"; "m128"]
    [node "VEX" [("W", "0"); ("L", "0"); ("m-mmmm", "00100"); ("pp", "111");
                 ("R-operand-number", "0"); ("BX-operand-number", "1");
                 ("vvvv", "1111")] []].

(** An addend linked to operand [-1] of a form with two operands. *)
Definition negative_index_document : Element :=
  document [("gas-name", "push")] ["r32"; "r64"]
    [node "Opcode" [("byte", "50"); ("addend-operand-number", "-1")] []].

(** An addend linked to operand [2] of a form with two operands. *)
Definition index_past_end_document : Element :=
  document [("gas-name", "push")] ["r32"; "r64"]
    [node "Opcode" [("byte", "50"); ("addend-operand-number", "2")] []].

(** A ModRM declaration whose mode is linked to operand 0 and whose rm is
    linked to operand 1. *)
Definition split_modrm_document : Element :=
  document [("gas-name", "mov")] ["r32"; "m32"]
    [node "ModRM" [("mode-operand-number", "0"); ("rm-operand-number", "1");
                   ("reg-operand-number", "0")] []].

(** An immediate of three bytes. *)
Definition odd_immediate_document : Element :=
  document [("gas-name", "add")] ["imm32"]
    [node "Immediate" [("size", "3"); ("operand-number", "0")] []].

(** A REX declaration with an X literal and a combined link. *)
Definition double_x_document : Element :=
  document [("gas-name", "mov")] ["m32"; "r32"]
    [node "REX" [("mandatory", "false"); ("W", "0"); ("R-operand-number", "1");
                 ("X", "0"); ("BX-operand-number", "0")] []].

(** A REX declaration whose B and X are both linked to operand 0. *)
Definition combined_link_document : Element :=
  document [("gas-name", "mov")] ["m32"; "r32"]
    [node "REX" [("mandatory", "false"); ("W", "0"); ("R-operand-number", "1");
                 ("BX-operand-number", "0")] []].

(** An encoding with a declaration of an unknown tag between two known ones. *)
Definition unknown_tag_components : list Element :=
  [node "Prefix" [("mandatory", "true"); ("byte", "66")] [];
   node "EVEX" [("W", "0")] [];
   node "Opcode" [("byte", "0F")] []].

(** A form without the gas-name attribute, and one without go-name. *)
Definition no_gas_name_document : Element :=
  document [("go-name", "MOVL")] ["r32"] [node "Opcode" [("byte", "90")] []].

Definition no_go_name_document : Element :=
  document [("gas-name", "movl")] ["r32"] [node "Opcode" [("byte", "90")] []].




(** ** Default values for ignored bits *)

(** [if self.F is None: self.F = d] *)
Definition fill (v : value) (d : Z) : value :=
  match v with
  | PyNone => PyInt d
  | _ => v
  end.

(** [REX.set_ignored]: the object after the call, or the failed assertion
    (the assertions come before any assignment). *)
Definition REX_set_ignored (w r x b : Z) (self : REX.t) : result REX.t :=
  assert (bool_decide (w ∈ [0; 1]));;
  assert (bool_decide (r ∈ [0; 1]));;
  assert (bool_decide (x ∈ [0; 1]));;
  assert (bool_decide (b ∈ [0; 1]));;
  ok (REX.mk (REX.is_mandatory self) (fill (REX.W self) w) (fill (REX.R self) r)
        (fill (REX.X self) x) (fill (REX.B self) b)).

(** [VEX.set_ignored] *)
Definition VEX_set_ignored (w l r x b : Z) (self : VEX.t) : result VEX.t :=
  assert (bool_decide (w ∈ [0; 1]));;
  assert (bool_decide (l ∈ [0; 1]));;
  assert (bool_decide (r ∈ [0; 1]));;
  assert (bool_decide (x ∈ [0; 1]));;
  assert (bool_decide (b ∈ [0; 1]));;
  ok (VEX.mk (VEX.mmmmm self) (VEX.pp self) (fill (VEX.W self) w)
        (fill (VEX.L self) l) (fill (VEX.R self) r) (fill (VEX.X self) x)
        (fill (VEX.B self) b) (VEX.vvvv self)).

(** ** How a returned model mirrors the document *)

(** What the form [fm] owes to its declaration [x] under the mnemonic
    [name]. *)
Definition form_of (name : string) (x : Element) (fm : InstructionForm.t) : Prop :=
  InstructionForm.name fm = name
  ∧ (∃ g, attrib x !! "gas-name" = Some g ∧ InstructionForm.gas_name fm = Some g)
  ∧ InstructionForm.go_name fm = attrib x !! "go-name"
  ∧ InstructionForm.mmx_mode fm = attrib x !! "mmx-mode"
  ∧ InstructionForm.xmm_mode fm = attrib x !! "xmm-mode"
  ∧ for_each read_operand (findall "Operands" "Operand" x)
    = ok (InstructionForm.operands fm)
  ∧ read_implicit_operands (findall "Operands" "ImplicitOperands" x) ∅ ∅
    = ok (InstructionForm.implicit_inputs fm, InstructionForm.implicit_outputs fm)
  ∧ for_each read_isa_extension (findall "ISA" "Extension" x)
    = ok (InstructionForm.isa_extensions fm)
  ∧ Forall2 (fun e enc => List.length (Encoding.components enc)
                          = List.length (List.filter known_tag (children e)))
            (findall "Encodings" "Encoding" x) (InstructionForm.encodings fm).

(** What the instruction [i] owes to its declaration [x]. *)
Definition instruction_of (x : Element) (i : Instruction.t) : Prop :=
  tag x = "Instruction"
  ∧ attrib x !! "name" = Some (Instruction.name i)
  ∧ (∃ s, attrib x !! "summary" = Some s ∧ Instruction.summary i = Some s)
  ∧ Forall2 (form_of (Instruction.name i)) (children x) (Instruction.forms i).

(** The component declarations of a document, in document order. *)
Definition component_declarations (root : Element) : list Element :=
  i ← children root; f ← children i; e ← findall "Encodings" "Encoding" f; children e.

(** The components of a model, in order. *)
Definition components_of (model : list Instruction.t) : list Component :=
  i ← model; f ← Instruction.forms i; e ← InstructionForm.encodings f;
  Encoding.components e.

(** ** What the branches leave in a component *)

Definition is_reference (v : value) : Prop := ∃ k, v = OperandRef k.

(** A field read from a literal attribute: [None] for "ignored", or the
    integer. *)
Definition is_literal (v : value) : Prop := v = PyNone ∨ ∃ z, v = PyInt z.

Definition ModRM_checked (m : ModRM.t) : Prop :=
  is_reference (ModRM.rm m)
  ∧ (ModRM.mode m = PyInt 3 ∨ ModRM.mode m = ModRM.rm m)
  ∧ (is_reference (ModRM.reg m) ∨ ∃ z, ModRM.reg m = PyInt z ∧ 0 <= z <= 7).

(** The one field of a component keyed by a width; [None] for the others. *)
Definition width_field (c : Component) : option value :=
  match c with
  | ImmediateByte v | ImmediateWord v | ImmediateDWord v | ImmediateQWord v
  | CodeOffset32 v | CodeOffset8 v | DataOffset32 v | DataOffset64 v => Some v
  | _ => None
  end.

(** How an explicit operand declaration gives a flag: absent is false. *)
Definition flag_of (a : gmap string string) (k : string) (b : bool) : Prop :=
  match a !! k with
  | None => b = false
  | Some s => (s = "true" ∧ b = true) ∨ (s = "false" ∧ b = false)
  end.

(** An implicit-operand declaration that marks [id] under attribute [k]. *)
Definition marks (k id : string) (x : Element) : Prop :=
  attrib x !! k = Some "true" ∧ attrib x !! "id" = Some id.


(** The lines printed for the declarations of unknown tag among [xs]. *)
Definition printed_by (xs : list Element) : list string :=
  List.map unknown_tag_line (List.filter (fun x => negb (known_tag x)) xs).

(** A field with two attributes to come from: the literal one was there and
    the linked one was not, or the other way round. *)
Definition one_source (a : gmap string string) (literal linked : string) (v : value)
  : Prop :=
  (contains a literal = true ∧ contains a linked = false ∧ is_literal v)
  ∨ (contains a literal = false ∧ contains a linked = true ∧ is_reference v).

(** The B bit has three attributes to come from. *)
Definition B_source (a : gmap string string) (v : value) : Prop :=
  (contains a "B" = true ∧ contains a "B-operand-number" = false
   ∧ contains a "BX-operand-number" = false ∧ is_literal v)
  ∨ (contains a "B" = false ∧ contains a "B-operand-number" = true
     ∧ contains a "BX-operand-number" = false ∧ is_reference v)
  ∨ (contains a "B" = false ∧ contains a "B-operand-number" = false
     ∧ contains a "BX-operand-number" = true ∧ is_reference v).


(** ** String representations *)

(** [Operand.__str__] *)
Definition Operand_str (o : Operand.t) : string :=
  match Operand.is_input o, Operand.is_output o with
  | false, false => Operand.type o
  | true, false => "[in] " ++ Operand.type o
  | false, true => "[out] " ++ Operand.type o
  | true, true => "[in/out] " ++ Operand.type o
  end.

(** The text begins with an opening bracket. *)
Definition bracketed (s : string) : bool :=
  match s with
  | String "[" _ => true
  | _ => false
  end.


(** * Properties *)

(** ** Inversion of the two monads *)

Lemma rbind_ok {A B} (r : result A) (k : A -> result B) (b : B) :
  rbind r k = inr b ↔ ∃ a, r = inr a ∧ k a = inr b.
Proof.
  destruct r as [e|a]; simpl; split.
  - discriminate.
  - intros (a & Ha & _). discriminate.
  - eauto.
  - intros (a' & Ha & Hk). congruence.
Qed.

Lemma assert_ok (b : bool) (u : unit) : assert b = inr u ↔ b = true.
Proof. destruct b, u; simpl; split; intros; (reflexivity || discriminate). Qed.

Lemma getitem_ok {V} (d : gmap string V) (k : string) (v : V) :
  getitem d k = inr v ↔ d !! k = Some v.
Proof. unfold getitem, ok, raise. destruct (d !! k); simpl; split; congruence. Qed.

Lemma contains_true {V} (d : gmap string V) (k : string) :
  contains d k = true ↔ ∃ v, d !! k = Some v.
Proof. unfold contains. rewrite bool_decide_eq_true. reflexivity. Qed.

Lemma contains_false {V} (d : gmap string V) (k : string) :
  contains d k = false ↔ d !! k = None.
Proof.
  unfold contains. rewrite bool_decide_eq_false, eq_None_not_Some. reflexivity.
Qed.

Lemma failed_not_ok {A} (r : result A) : (∀ a, r ≠ inr a) → failed r.
Proof. destruct r as [e|a]; simpl; [trivial | intros H; exact (H a eq_refl)]. Qed.

Lemma bind_returned {A B} (m : M A) (k : A -> M B) f b f' :
  bind m k f = Returned b f' ↔ ∃ a f1, m f = Returned a f1 ∧ k a f1 = Returned b f'.
Proof.
  unfold bind. destruct (m f) as [e out|a f1]; split.
  - discriminate.
  - intros (a & f1 & H & _). discriminate.
  - eauto.
  - intros (a' & f1' & H & Hk). congruence.
Qed.

Lemma lift_returned {A} (r : result A) f a f' :
  lift r f = Returned a f' ↔ r = inr a ∧ f' = f.
Proof.
  unfold lift. destruct r as [e|a0]; split.
  - discriminate.
  - intros [H _]. discriminate.
  - intros H. injection H as -> ->. auto.
  - intros [H ->]. congruence.
Qed.

Lemma ret_returned {A} (a b : A) f f' : ret a f = Returned b f' ↔ a = b ∧ f' = f.
Proof. unfold ret. split; [intros H; injection H as -> ->; auto | intros [-> ->]; reflexivity]. Qed.

Lemma aborted_not_returned {A} (o : outcome A) : (∀ a f, o ≠ Returned a f) → aborted o.
Proof. destruct o as [e out|a f]; simpl; [trivial | intros H; exact (H a f eq_refl)]. Qed.

(** Destructs every hypothesis that says a computation succeeded. *)
Ltac invert_ok :=
  repeat match goal with
    | H : ok _ = inr _ |- _ => unfold ok in H
    | H : raise _ = inr _ |- _ => discriminate H
    | H : inl _ = inr _ |- _ => discriminate H
    | H : inr _ = inr _ |- _ => injection H as H; try subst
    | H : rbind _ _ = inr _ |- _ =>
        apply rbind_ok in H; destruct H as (? & ? & H)
    | H : assert _ = inr _ |- _ => apply assert_ok in H
    | H : getitem _ _ = inr _ |- _ => apply getitem_ok in H
    | H : negb _ = true |- _ => apply negb_true_iff in H
    | H : (if ?b then _ else _) = inr _ |- _ => destruct b eqn:?
    end.

Ltac invert_returned :=
  repeat match goal with
    | H : bind _ _ _ = Returned _ _ |- _ =>
        apply bind_returned in H; destruct H as (? & ? & ? & H)
    | H : lift _ _ = Returned _ _ |- _ =>
        apply lift_returned in H; destruct H as [H ?]; try subst
    | H : ret _ _ = Returned _ _ |- _ =>
        apply ret_returned in H; destruct H as [? ?]; try subst
    end.

(** A loop that returns has run its body, with success, on every element. *)
Lemma for_in_returned {A B} (body : A -> M (list B)) xs f ys f' :
  for_in body xs f = Returned ys f' →
  ∀ x, x ∈ xs → ∃ f1 y f2, body x f1 = Returned y f2 ∧ y ⊆ ys.
Proof.
  revert f ys. induction xs as [|x0 xs IH]; intros f ys H x Hx.
  - inversion Hx.
  - simpl in H. invert_returned.
    apply elem_of_cons in Hx as [->|Hx].
    + eexists _, _, _. split; [eassumption|]. intros c Hc. apply elem_of_app. auto.
    + match goal with
      | H1 : for_in body xs _ = Returned _ _ |- _ =>
          destruct (IH _ _ H1 x Hx) as (f1 & y' & f2 & Hb & Hsub)
      end.
      eexists _, _, _. split; [eassumption|]. intros c Hc. apply elem_of_app. auto.
Qed.

Lemma for_in_elem {A B} (body : A -> M (list B)) xs f ys f' :
  for_in body xs f = Returned ys f' →
  ∀ y, y ∈ ys → ∃ x f1 zs f2, x ∈ xs ∧ body x f1 = Returned zs f2 ∧ y ∈ zs.
Proof.
  revert f ys. induction xs as [|x0 xs IH]; intros f ys H y Hy.
  - simpl in H. invert_returned. inversion Hy.
  - simpl in H. invert_returned.
    apply elem_of_app in Hy as [Hy|Hy].
    + eexists _, _, _, _. split; [apply list_elem_of_here|]. eauto.
    + match goal with
      | H1 : for_in body xs _ = Returned _ _ |- _ =>
          destruct (IH _ _ H1 y Hy) as (x' & f1 & zs & f2 & Hx & Hb & Hin)
      end.
      eexists _, _, _, _. split; [apply list_elem_of_further; eassumption|]. eauto.
Qed.

(** ** Operand references *)

Lemma index_position_ok {A} (l : list A) (i : Z) (k : nat) :
  index_position l i = inr k ↔
    (0 <= i < Z.of_nat (List.length l) ∧ k = Z.to_nat i) ∨
    (- Z.of_nat (List.length l) <= i < 0 ∧ k = Z.to_nat (Z.of_nat (List.length l) + i)).
Proof.
  unfold index_position, ok, raise.
  destruct (0 <=? i) eqn:E1, (i <? Z.of_nat (List.length l)) eqn:E2; simpl;
    try destruct (- Z.of_nat (List.length l) <=? i) eqn:E3;
    try destruct (i <? 0) eqn:E4; simpl;
    split; intros H; try (injection H as <-); try discriminate; try lia;
    try (destruct H as [[? ->]|[? ->]]; first [reflexivity | lia]).
Qed.

Lemma index_position_lt {A} (l : list A) (i : Z) (k : nat) :
  index_position l i = inr k → (k < List.length l)%nat.
Proof. rewrite index_position_ok. lia. Qed.

Lemma index_position_out_of_range {A} (l : list A) (i : Z) :
  i < - Z.of_nat (List.length l) ∨ Z.of_nat (List.length l) <= i →
  index_position l i = raise IndexError.
Proof.
  intros H. unfold index_position.
  destruct (0 <=? i) eqn:E1, (i <? Z.of_nat (List.length l)) eqn:E2; simpl;
    try destruct (- Z.of_nat (List.length l) <=? i) eqn:E3;
    try destruct (i <? 0) eqn:E4; simpl; first [reflexivity | lia].
Qed.

Lemma operand_at_ok operands s v :
  operand_at operands s = inr v ↔
    ∃ i k, int_str s = inr i ∧ index_position operands i = inr k ∧ v = OperandRef k.
Proof.
  unfold operand_at. split.
  - intros H. invert_ok. eauto.
  - intros (i & k & Hi & Hk & ->). rewrite Hi. simpl. rewrite Hk. reflexivity.
Qed.

Lemma operand_at_in_bounds operands s v :
  operand_at operands s = inr v → value_in_bounds (List.length operands) v.
Proof.
  rewrite operand_at_ok. intros (i & k & _ & Hk & ->). simpl.
  eapply index_position_lt, Hk.
Qed.

Lemma bit_literal_in_bounds n s v : bit_literal s = inr v → value_in_bounds n v.
Proof. unfold bit_literal. intros H. invert_ok; exact I. Qed.

Lemma operand_at_names_position operands a k s v :
  a !! k = Some s → operand_at operands s = inr v →
  names_position (List.length operands) a k.
Proof.
  intros Hk. rewrite operand_at_ok. intros (i & p & Hi & Hp & _).
  exists s, i. split; [exact Hk|]. split; [exact Hi|].
  apply index_position_ok in Hp. lia.
Qed.

(** Closes a bound on the fields of a component from the hypotheses that
    [invert_ok] leaves. *)
Ltac fields_in_bounds :=
  unfold component_in_bounds; simpl;
  repeat (apply Forall_cons; split);
  try apply Forall_nil;
  try exact I;
  eauto using operand_at_in_bounds, bit_literal_in_bounds.

(** Closes the range of every linked attribute likewise. *)
Ltac linked_in_range :=
  repeat match goal with
    | H : contains _ _ = _ |- _ => rewrite H
    end;
  simpl;
  repeat (apply Forall_cons; split);
  try apply Forall_nil;
  eauto using operand_at_names_position.

Lemma read_REX_in_bounds operands a r :
  read_REX operands a = inr r → component_in_bounds (List.length operands) (AREX r).
Proof. unfold read_REX. intros H. invert_ok; fields_in_bounds. Qed.

Lemma read_REX_linked operands a r :
  read_REX operands a = inr r →
  Forall (names_position (List.length operands) a) (linked_REX a).
Proof.
  unfold read_REX, linked_REX. intros H. invert_ok; linked_in_range.
Qed.

Lemma read_VEX_in_bounds operands rex a v :
  read_VEX operands rex a = inr v → component_in_bounds (List.length operands) (AVEX v).
Proof.
  unfold read_VEX. intros H. invert_ok.
  all: repeat match goal with
         | H : match ?r with Some _ => _ | None => _ end = inr _ |- _ =>
             destruct r; invert_ok
         end.
  all: fields_in_bounds.
Qed.

Lemma read_VEX_linked operands rex a v :
  read_VEX operands rex a = inr v →
  Forall (names_position (List.length operands) a) (linked_VEX a).
Proof.
  unfold read_VEX, linked_VEX, linked_REX. intros H. invert_ok.
  all: linked_in_range.
Qed.

Lemma read_Opcode_in_bounds operands a o :
  read_Opcode operands a = inr o → component_in_bounds (List.length operands) (AnOpcode o).
Proof. unfold read_Opcode. intros H. invert_ok; fields_in_bounds. Qed.

Lemma read_Opcode_linked operands a o :
  read_Opcode operands a = inr o →
  Forall (names_position (List.length operands) a) (linked_Opcode a).
Proof. unfold read_Opcode, linked_Opcode. intros H. invert_ok; linked_in_range. Qed.

Lemma read_ModRM_in_bounds operands a m :
  read_ModRM operands a = inr m → component_in_bounds (List.length operands) (AModRM m).
Proof. unfold read_ModRM. intros H. invert_ok; fields_in_bounds. Qed.

Lemma read_ModRM_linked operands a m :
  read_ModRM operands a = inr m →
  Forall (names_position (List.length operands) a) (linked_ModRM a).
Proof. unfold read_ModRM, linked_ModRM. intros H. invert_ok; linked_in_range. Qed.

Lemma read_Immediate_in_bounds operands a c :
  read_Immediate operands a = inr c → component_in_bounds (List.length operands) c.
Proof. unfold read_Immediate. intros H. invert_ok; fields_in_bounds. Qed.

Lemma read_Immediate_linked operands a c :
  read_Immediate operands a = inr c →
  names_position (List.length operands) a "operand-number".
Proof.
  unfold read_Immediate. intros H. invert_ok; eauto using operand_at_names_position.
Qed.

Lemma read_CodeOffset_in_bounds operands a c :
  read_CodeOffset operands a = inr c → component_in_bounds (List.length operands) c.
Proof. unfold read_CodeOffset. intros H. invert_ok; fields_in_bounds. Qed.

Lemma read_CodeOffset_linked operands a c :
  read_CodeOffset operands a = inr c →
  names_position (List.length operands) a "operand-number".
Proof.
  unfold read_CodeOffset. intros H. invert_ok; eauto using operand_at_names_position.
Qed.

Lemma read_DataOffset_in_bounds operands a c :
  read_DataOffset operands a = inr c → component_in_bounds (List.length operands) c.
Proof. unfold read_DataOffset. intros H. invert_ok; fields_in_bounds. Qed.

Lemma read_DataOffset_linked operands a c :
  read_DataOffset operands a = inr c →
  names_position (List.length operands) a "operand-number".
Proof.
  unfold read_DataOffset. intros H. invert_ok; eauto using operand_at_names_position.
Qed.

(** ** From a component to the document *)

(** Takes the loop body apart along its [if]/[elif] chain. *)
Ltac by_tag H :=
  unfold read_component in H;
  repeat match type of H with
    | (if ?b then _ else _) _ = Returned _ _ => destruct b eqn:?
    end;
  invert_returned.

Lemma read_component_in_bounds operands x f cs f' :
  read_component operands x f = Returned cs f' →
  Forall (component_in_bounds (List.length operands)) cs.
Proof.
  intros H. by_tag H.
  all: try (apply Forall_cons; split; [|apply Forall_nil]).
  all: try apply Forall_nil.
  all: eauto using read_REX_in_bounds, read_VEX_in_bounds, read_Opcode_in_bounds,
         read_ModRM_in_bounds, read_Immediate_in_bounds, read_CodeOffset_in_bounds,
         read_DataOffset_in_bounds.
Qed.

Lemma read_component_linked operands x f cs f' :
  read_component operands x f = Returned cs f' →
  Forall (names_position (List.length operands) (attrib x)) (linked_attributes x).
Proof.
  intros H. unfold linked_attributes. by_tag H.
  all: repeat match goal with
         | E : has_tag _ _ = _ |- _ => rewrite E; clear E
         end.
  all: try apply Forall_nil.
  all: try (apply Forall_cons; split; [|apply Forall_nil]).
  all: eauto using read_REX_linked, read_VEX_linked, read_Opcode_linked,
         read_ModRM_linked, read_Immediate_linked, read_CodeOffset_linked,
         read_DataOffset_linked.
Qed.

(** A load that returns has read every component declaration of the
    document, against the operands of the form that holds it. *)
Lemma load_reads_path root model f' i fm e x :
  load root = Returned model f' →
  i ∈ children root → fm ∈ children i →
  e ∈ findall "Encodings" "Encoding" fm → x ∈ children e →
  ∃ operands f1 cs f2,
    for_each read_operand (findall "Operands" "Operand" fm) = ok operands
    ∧ read_component operands x f1 = Returned cs f2.
Proof.
  unfold load, read_instruction_set.
  intros H Hi Hfm He Hx.
  invert_returned.
  match goal with
  | H1 : for_in read_instruction _ _ = Returned _ _ |- _ =>
      destruct (for_in_returned _ _ _ _ _ H1 i Hi) as (g1 & y1 & g2 & Hri & _)
  end.
  unfold read_instruction in Hri. invert_returned.
  match goal with
  | H1 : for_in (read_instruction_form _) _ _ = Returned _ _ |- _ =>
      destruct (for_in_returned _ _ _ _ _ H1 fm Hfm) as (g3 & y2 & g4 & Hrf & _)
  end.
  unfold read_instruction_form in Hrf. invert_returned.
  match goal with
  | H1 : for_in (read_encoding _) _ _ = Returned _ _ |- _ =>
      destruct (for_in_returned _ _ _ _ _ H1 e He) as (g5 & y3 & g6 & Hre & _)
  end.
  unfold read_encoding in Hre. invert_returned.
  match goal with
  | H1 : for_in (read_component _) _ _ = Returned _ _ |- _ =>
      destruct (for_in_returned _ _ _ _ _ H1 x Hx) as (g7 & y4 & g8 & Hrc & _)
  end.
  eauto 10.
Qed.

Lemma load_reads_components root model f' operands x :
  load root = Returned model f' → declares root operands x →
  ∃ f1 cs f2, read_component operands x f1 = Returned cs f2.
Proof.
  intros H (i & fm & e & Hi & Hfm & Hops & He & Hx).
  destruct (load_reads_path _ _ _ _ _ _ _ H Hi Hfm He Hx)
    as (operands' & f1 & cs & f2 & Hops' & Hc).
  rewrite Hops in Hops'. injection Hops' as <-. eauto.
Qed.

(** A declaration that no operand list and no frame let through aborts the
    load. *)
Lemma load_aborted_by root x :
  component_of root x →
  (∀ operands f, aborted (read_component operands x f)) →
  aborted (load root).
Proof.
  intros (i & fm & e & Hi & Hfm & He & Hx) Hab.
  apply aborted_not_returned. intros model f' Hload.
  destruct (load_reads_path _ _ _ _ _ _ _ Hload Hi Hfm He Hx)
    as (operands & f1 & cs & f2 & _ & Hc).
  specialize (Hab operands f1). rewrite Hc in Hab. exact Hab.
Qed.

(** Every operand reference of a returned model is within bounds. *)
Lemma load_in_bounds root model f' :
  load root = Returned model f' → model_in_bounds model.
Proof.
  unfold load, read_instruction_set, model_in_bounds. intros H. invert_returned.
  apply Forall_forall. intros i Hi.
  match goal with
  | H1 : for_in read_instruction _ _ = Returned _ _ |- _ =>
      destruct (for_in_elem _ _ _ _ _ H1 i Hi) as (xi & g1 & y1 & g2 & _ & Hri & Hin1)
  end.
  unfold read_instruction in Hri. invert_returned.
  apply list_elem_of_singleton in Hin1 as ->. simpl.
  apply Forall_forall. intros fm Hfm.
  match goal with
  | H1 : for_in (read_instruction_form _) _ _ = Returned _ _ |- _ =>
      destruct (for_in_elem _ _ _ _ _ H1 fm Hfm) as (xf & g3 & y2 & g4 & _ & Hrf & Hin2)
  end.
  unfold read_instruction_form in Hrf. invert_returned.
  apply list_elem_of_singleton in Hin2 as ->.
  unfold form_in_bounds. simpl.
  apply Forall_forall. intros e He.
  match goal with
  | H1 : for_in (read_encoding _) _ _ = Returned _ _ |- _ =>
      destruct (for_in_elem _ _ _ _ _ H1 e He) as (xe & g5 & y3 & g6 & _ & Hre & Hin3)
  end.
  unfold read_encoding in Hre. invert_returned.
  apply list_elem_of_singleton in Hin3 as ->. simpl.
  apply Forall_forall. intros c Hc.
  match goal with
  | H1 : for_in (read_component _) _ _ = Returned _ _ |- _ =>
      destruct (for_in_elem _ _ _ _ _ H1 c Hc) as (xc & g7 & y4 & g8 & _ & Hrc & Hin4)
  end.
  apply read_component_in_bounds in Hrc.
  rewrite Forall_forall in Hrc. auto.
Qed.

(** ** What the branches refuse *)

Lemma has_tag_true t x : has_tag t x = true → tag x = t.
Proof. unfold has_tag. apply String.eqb_eq. Qed.

(** A failing reader aborts the loop body, whatever the frame. *)
Ltac aborts_by_tag Htag Hfail :=
  let f := fresh "f" in
  intros f; apply has_tag_true in Htag;
  unfold read_component, has_tag; rewrite Htag; simpl;
  unfold bind; apply aborted_not_returned; intros ? ? ?;
  match goal with
  | H : match lift ?r _ with _ => _ end = Returned _ _ |- _ =>
      destruct r; [discriminate H | exact Hfail]
  end.

Lemma ModRM_aborts operands x :
  has_tag "ModRM" x = true → failed (read_ModRM operands (attrib x)) →
  ∀ f, aborted (read_component operands x f).
Proof. intros Htag Hfail. aborts_by_tag Htag Hfail. Qed.

Lemma REX_aborts operands x :
  has_tag "REX" x = true → failed (read_REX operands (attrib x)) →
  ∀ f, aborted (read_component operands x f).
Proof. intros Htag Hfail. aborts_by_tag Htag Hfail. Qed.

Lemma Immediate_aborts operands x :
  has_tag "Immediate" x = true → failed (read_Immediate operands (attrib x)) →
  ∀ f, aborted (read_component operands x f).
Proof. intros Htag Hfail. aborts_by_tag Htag Hfail. Qed.

Lemma CodeOffset_aborts operands x :
  has_tag "CodeOffset" x = true → failed (read_CodeOffset operands (attrib x)) →
  ∀ f, aborted (read_component operands x f).
Proof. intros Htag Hfail. aborts_by_tag Htag Hfail. Qed.

Lemma DataOffset_aborts operands x :
  has_tag "DataOffset" x = true → failed (read_DataOffset operands (attrib x)) →
  ∀ f, aborted (read_component operands x f).
Proof. intros Htag Hfail. aborts_by_tag Htag Hfail. Qed.

(** Turns the boolean tests that [invert_ok] leaves into propositions. *)
Ltac reflect_tests :=
  repeat match goal with
    | H : contains _ _ = true |- _ => apply contains_true in H; destruct H
    | H : contains _ _ = false |- _ => apply contains_false in H
    | H : (_ =? _) = true |- _ => apply Z.eqb_eq in H
    | H : (_ =? _) = false |- _ => apply Z.eqb_neq in H
    | H : String.eqb _ _ = true |- _ => apply String.eqb_eq in H
    | H : String.eqb _ _ = false |- _ => apply String.eqb_neq in H
    | H : _ && _ = true |- _ => apply andb_true_iff in H; destruct H
    | H : (_ <=? _) = true |- _ => apply Z.leb_le in H
    | H : bool_decide _ = true |- _ => apply bool_decide_eq_true in H
    end.

Lemma ModRM_violation_fails operands a :
  ModRM_violation a → failed (read_ModRM operands a).
Proof.
  intros Hv.
  assert (Hv' : (∃ m, a !! "mode" = Some m ∧ int_base m 2 ≠ ok 3)
                ∨ (a !! "mode" = None
                   ∧ a !! "mode-operand-number" ≠ a !! "rm-operand-number")
                ∨ (∃ r, a !! "reg" = Some r
                        ∧ ∀ z, int_str r = ok z → ¬ (0 <= z <= 7))).
  { destruct Hv as [(m & Hm & [[_ He]|(z & Hz & Hne)])
                   |[H|(r & Hr & [[_ He]|(z & Hz & Hne)])]].
    - left. exists m. split; [exact Hm|]. rewrite He. discriminate.
    - left. exists m. split; [exact Hm|]. rewrite Hz. unfold ok. congruence.
    - right. left. exact H.
    - right. right. exists r. split; [exact Hr|].
      intros z Hz. rewrite He in Hz. discriminate Hz.
    - right. right. exists r. split; [exact Hr|].
      intros z' Hz'. rewrite Hz in Hz'. injection Hz' as <-. exact Hne. }
  clear Hv.
  apply failed_not_ok. intros m H. unfold read_ModRM in H.
  invert_ok; reflect_tests.
  all: destruct Hv' as [(m0 & Hm & Hne)|[[Hm Hne]|(r0 & Hr & Hne)]].
  all: unfold ok in *; simplify_eq.
  all: try (apply Hne; congruence).
  all: try (eapply Hne; [eassumption | lia]).
Qed.

(** Two successful runs of one computation gave one value. *)
Ltac merge_results :=
  repeat match goal with
    | H1 : ?t = inr ?x, H2 : ?t = inr ?y |- _ =>
        let E := fresh in
        assert (E : y = x) by congruence; clear H2; simplify_eq
    end.

Lemma read_ModRM_fields operands a m :
  read_ModRM operands a = ok m →
  (contains a "mode" = true → ModRM.mode m = PyInt 3)
  ∧ (contains a "mode" = false →
     ∃ k, ModRM.mode m = OperandRef k ∧ ModRM.rm m = OperandRef k)
  ∧ (contains a "reg" = true → ∃ z, ModRM.reg m = PyInt z ∧ 0 <= z <= 7).
Proof.
  intros H. unfold read_ModRM, ok in H. invert_ok; simpl.
  all: repeat split; intros Hc; try congruence.
  all: reflect_tests; simplify_eq; eauto.
  all: repeat match goal with
         | H : operand_at _ _ = inr _ |- _ =>
             apply operand_at_ok in H; destruct H as (? & ? & ? & ? & ->)
         end.
  all: simplify_eq; merge_results; eauto.
Qed.

Lemma REX_violation_fails operands a :
  REX_violation a → failed (read_REX operands a).
Proof.
  intros Hv. apply failed_not_ok. intros r H. unfold read_REX in H.
  invert_ok.
  all: destruct Hv as [[HBX [HB|[HX|HBn]]]|(HB & HBn & HBX)]; congruence.
Qed.

Lemma read_REX_combined operands a r :
  read_REX operands a = ok r → contains a "BX-operand-number" = true →
  ∃ n k, a !! "BX-operand-number" = Some n
         ∧ operand_at operands n = ok (OperandRef k)
         ∧ REX.B r = OperandRef k ∧ REX.X r = OperandRef k.
Proof.
  intros H HBX. unfold read_REX, ok in H. invert_ok; try congruence.
  all: simpl.
  all: repeat match goal with
         | H : operand_at _ _ = inr ?v |- _ =>
             let H' := fresh in
             pose proof H as H';
             apply operand_at_ok in H'; destruct H' as (? & ? & _ & _ & ->);
             revert H
         end; intros.
  all: simplify_eq; merge_results; unfold ok; eauto 10.
Qed.

(** ** Width-keyed components *)

Lemma lookup_contains {V} (d : gmap string V) k v : d !! k = Some v → contains d k = true.
Proof. intros H. apply contains_true. eauto. Qed.

Lemma lookup_getitem {V} (d : gmap string V) k v : d !! k = Some v → getitem d k = inr v.
Proof. apply getitem_ok. Qed.

(** Replays a reader on a declaration whose size and operand are known. *)
Ltac replay Hs Ho :=
  unfold declared_size, declared_operand in Hs, Ho; unfold ok in *; invert_ok;
  repeat match goal with
    | H : _ !! _ = Some _ |- _ =>
        rewrite ?(lookup_contains _ _ _ H), ?(lookup_getitem _ _ _ H); clear H
    end;
  simpl;
  repeat match goal with
    | H : _ = inr _ |- _ => rewrite H; simpl
    end;
  try reflexivity.

Lemma read_Immediate_ok operands a c :
  read_Immediate operands a = ok c ↔
    ∃ z o, declared_size a = ok z ∧ declared_operand operands a = ok o
           ∧ ((z = 1 ∧ c = ImmediateByte o) ∨ (z = 2 ∧ c = ImmediateWord o)
              ∨ (z = 4 ∧ c = ImmediateDWord o) ∨ (z = 8 ∧ c = ImmediateQWord o)).
Proof.
  split.
  - intros H. unfold read_Immediate, ok in H. invert_ok; reflect_tests.
    all: eexists _, _; unfold declared_size, declared_operand.
    all: repeat match goal with
           | H : _ !! _ = Some _ |- _ => rewrite (lookup_getitem _ _ _ H); clear H
           end; simpl.
    all: split; [eassumption|]; split; [eassumption|]; tauto.
  - intros (z & o & Hs & Ho & Hz). unfold read_Immediate.
    destruct Hz as [[-> ->]|[[-> ->]|[[-> ->]|[-> ->]]]]; replay Hs Ho.
Qed.

Lemma read_CodeOffset_ok operands a c :
  read_CodeOffset operands a = ok c ↔
    ∃ z o, declared_size a = ok z ∧ declared_operand operands a = ok o
           ∧ ((z = 1 ∧ c = CodeOffset8 o) ∨ (z = 4 ∧ c = CodeOffset32 o)).
Proof.
  split.
  - intros H. unfold read_CodeOffset, ok in H. invert_ok; reflect_tests.
    all: eexists _, _; unfold declared_size, declared_operand.
    all: repeat match goal with
           | H : _ !! _ = Some _ |- _ => rewrite (lookup_getitem _ _ _ H); clear H
           end; simpl.
    all: split; [eassumption|]; split; [eassumption|]; tauto.
  - intros (z & o & Hs & Ho & Hz). unfold read_CodeOffset.
    destruct Hz as [[-> ->]|[-> ->]]; replay Hs Ho.
Qed.

Lemma read_DataOffset_ok operands a c :
  read_DataOffset operands a = ok c ↔
    ∃ z o, declared_size a = ok z ∧ declared_operand operands a = ok o
           ∧ ((z = 4 ∧ c = DataOffset32 o) ∨ (z = 8 ∧ c = DataOffset64 o)).
Proof.
  split.
  - intros H. unfold read_DataOffset, ok in H. invert_ok; reflect_tests.
    all: eexists _, _; unfold declared_size, declared_operand.
    all: repeat match goal with
           | H : _ !! _ = Some _ |- _ => rewrite (lookup_getitem _ _ _ H); clear H
           end; simpl.
    all: split; [eassumption|]; split; [eassumption|]; tauto.
  - intros (z & o & Hs & Ho & Hz). unfold read_DataOffset.
    destruct Hz as [[-> ->]|[-> ->]]; replay Hs Ho.
Qed.

(** ** Unknown tags *)

Lemma unknown_tag_skipped operands x f :
  known_tag x = false →
  read_component operands x f
  = Returned [] (mkFrame (rex_var f) (stdout f ++ [unknown_tag_line x])).
Proof.
  unfold known_tag, known_tags. intros H. apply bool_decide_eq_false in H.
  unfold read_component, has_tag.
  repeat match goal with
    | |- context [String.eqb (tag x) ?t] =>
        destruct (String.eqb_spec (tag x) t) as [E|_];
        [exfalso; apply H; rewrite E; set_solver|]
    end.
  reflexivity.
Qed.

Lemma known_tag_one_component operands x f cs f' :
  known_tag x = true → read_component operands x f = Returned cs f' →
  (∃ c, cs = [c]) ∧ stdout f' = stdout f.
Proof.
  intros Hk H. by_tag H.
  all: try (split; [eexists; reflexivity | reflexivity]).
  - unfold set_rex in *.
    match goal with
    | H : Returned _ _ = Returned _ _ |- _ => injection H as _ <-
    end.
    split; [eexists; reflexivity | reflexivity].
  - unfold get_rex in *.
    match goal with
    | H : Returned _ _ = Returned _ _ |- _ => injection H as _ <-
    end.
    split; [eexists; reflexivity | reflexivity].
  - exfalso. unfold known_tag, known_tags in Hk. apply bool_decide_eq_true in Hk.
    unfold has_tag in *. reflect_tests.
    repeat (apply elem_of_cons in Hk as [Hk|Hk]; [congruence|]).
    inversion Hk.
Qed.



Lemma for_in_known_count operands xs :
  ∀ f cs f', for_in (read_component operands) xs f = Returned cs f' →
             List.length cs = List.length (List.filter known_tag xs)
             ∧ stdout f' = (stdout f
                            ++ List.map unknown_tag_line
                                 (List.filter (fun x => negb (known_tag x)) xs))%list.
Proof.
  induction xs as [|x xs IH]; intros f cs f' H; simpl in H; invert_returned.
  - simpl. rewrite app_nil_r. auto.
  - match goal with
    | H1 : for_in _ xs _ = Returned _ _ |- _ => destruct (IH _ _ _ H1) as [Hlen Hout]
    end.
    simpl. destruct (known_tag x) eqn:Hk; simpl.
    + match goal with
      | H1 : read_component _ x _ = Returned _ _ |- _ =>
          destruct (known_tag_one_component _ _ _ _ _ Hk H1) as [[c ->] Hs]
      end.
      simpl. rewrite Hlen, Hout, Hs. auto.
    + match goal with
      | H1 : read_component _ x _ = Returned _ _ |- _ =>
          rewrite (unknown_tag_skipped _ _ _ Hk) in H1; injection H1 as <- <-
      end.
      simpl in *. rewrite Hlen, Hout, <- app_assoc. auto.
Qed.

(** ** Display names *)

Lemma gas_name_is_required name x f :
  attrib x !! "gas-name" = None →
  read_instruction_form name x f = Raised KeyError (stdout f).
Proof.
  intros H. unfold read_instruction_form, bind, lift, getitem. rewrite H. reflexivity.
Qed.

Lemma go_name_is_recorded name x f forms f' :
  read_instruction_form name x f = Returned forms f' →
  ∃ fm, forms = [fm] ∧ InstructionForm.go_name fm = attrib x !! "go-name".
Proof.
  intros H. unfold read_instruction_form in H. invert_returned.
  eexists. split; reflexivity.
Qed.

Lemma go_name_is_optional name x f :
  read_instruction_form name (without_attribute "go-name" x) f
  = on_value (List.map (with_go_name None)) (read_instruction_form name x f).
Proof.
  destruct x as [t a c]. unfold without_attribute, read_instruction_form. simpl.
  unfold findall. simpl.
  rewrite lookup_delete_eq.
  rewrite !(lookup_delete_ne a "go-name") by discriminate.
  unfold getitem. rewrite !(lookup_delete_ne a "go-name") by discriminate.
  unfold bind, lift, ret.
  repeat case_match; simplify_eq; reflexivity.
Qed.

(** ** Documents of one form *)

Lemma read_plain_operand t : read_operand (node "Operand" [("type", t)] []) = ok (plain t).
Proof.
  unfold read_operand, node, attrs. simpl.
  change (list_to_map [("type", t)]) with (<["type" := t]> (∅ : gmap string string)).
  unfold getitem. rewrite lookup_insert_eq. simpl.
  rewrite !lookup_insert_ne by discriminate. rewrite lookup_empty. reflexivity.
Qed.

Lemma read_plain_operands types :
  for_each read_operand (List.map (fun t => node "Operand" [("type", t)] []) types)
  = ok (List.map plain types).
Proof.
  induction types as [|t types IH]; [reflexivity|].
  simpl. rewrite read_plain_operand. simpl. rewrite IH. reflexivity.
Qed.

Lemma filter_operands types :
  List.filter (has_tag "Operand") (List.map (fun t => node "Operand" [("type", t)] []) types)
  = List.map (fun t => node "Operand" [("type", t)] []) types.
Proof. induction types as [|t types IH]; [reflexivity|]. simpl. rewrite IH. reflexivity. Qed.

Lemma document_declares form_attrs types components x :
  x ∈ components →
  declares (document form_attrs types components) (List.map plain types) x.
Proof.
  intros Hx. unfold declares, document.
  eexists _, _, _. split; [apply list_elem_of_here|].
  split; [apply list_elem_of_here|].
  split; [|split; [apply list_elem_of_here | exact Hx]].
  unfold findall. simpl. rewrite filter_operands, app_nil_r. apply read_plain_operands.
Qed.

Lemma document_component form_attrs types components x :
  x ∈ components → component_of (document form_attrs types components) x.
Proof.
  intros Hx. destruct (document_declares form_attrs types components x Hx)
    as (i & f & e & Hi & Hf & _ & He & Hxe).
  exists i, f, e. auto.
Qed.

Lemma load_reads_forms root model f' i fm :
  load root = Returned model f' → i ∈ children root → fm ∈ children i →
  ∃ name f1 forms f2, read_instruction_form name fm f1 = Returned forms f2.
Proof.
  unfold load, read_instruction_set. intros H Hi Hfm. invert_returned.
  match goal with
  | H1 : for_in read_instruction _ _ = Returned _ _ |- _ =>
      destruct (for_in_returned _ _ _ _ _ H1 i Hi) as (g1 & y1 & g2 & Hri & _)
  end.
  unfold read_instruction in Hri. invert_returned.
  match goal with
  | H1 : for_in (read_instruction_form _) _ _ = Returned _ _ |- _ =>
      destruct (for_in_returned _ _ _ _ _ H1 fm Hfm) as (g3 & y2 & g4 & Hrf & _)
  end.
  eauto.
Qed.

(** ** Encodings, and the VEX branch *)


(** The defect of lines 660 and 672 in general: a VEX declaration with a
    literal R is read only when [rex] is bound to a REX object whose R is an
    integer, and that integer is what the VEX object gets. *)
Lemma read_VEX_literal_R operands rex a r v :
  a !! "R" = Some r → r ≠ "ignored" → read_VEX operands rex a = ok v →
  ∃ old z, rex = Some old ∧ REX.R old = PyInt z ∧ VEX.R v = PyInt z.
Proof.
  intros Hr Hne H. unfold read_VEX, ok in H.
  rewrite (lookup_contains _ _ _ Hr) in H.
  invert_ok; reflect_tests; simplify_eq.
  all: destruct rex as [old|]; [|discriminate].
  all: invert_ok.
  all: destruct (REX.R old) eqn:E; try discriminate.
  all: simpl in *; unfold ok in *; simplify_eq; eauto.
Qed.

(** ** Checks of the embedding on small inputs *)

Example int_examples :
  int_base "F2" 16 = ok 242 ∧ int_base "0x66" 16 = ok 102
  ∧ int_base "00011" 2 = ok 3 ∧ int_base "0b11" 2 = ok 3
  ∧ int_base "12" 2 = raise ValueError ∧ int_str " -1 " = ok (-1)
  ∧ int_str "1_0" = ok 10 ∧ int_str "1__0" = raise ValueError
  ∧ int_str "" = raise ValueError ∧ int_str "0x1" = raise ValueError
  ∧ int_base "0x" 16 = raise ValueError ∧ int_base "0x_1f" 16 = ok 31
  ∧ int_str "1 2" = raise ValueError ∧ int_str "+07" = ok 7.
Proof. repeat split; reflexivity. Qed.

Example index_examples :
  index_position ["a"; "b"; "c"] 2 = ok 2%nat
  ∧ index_position ["a"; "b"; "c"] (-3) = ok 0%nat
  ∧ index_position ["a"; "b"; "c"] 3 = raise IndexError
  ∧ index_position ["a"; "b"; "c"] (-4) = raise IndexError.
Proof. repeat split; reflexivity. Qed.

(** One instruction, one form, one register operand that is read and
    written, one encoding of one literal opcode. *)
Example single_opcode_document :
  load (node "InstructionSet" [("name", "x86-64")]
          [node "Instruction" [("name", "INC"); ("summary", "Increment by 1")]
             [node "InstructionForm" [("gas-name", "incl"); ("go-name", "INCL")]
                [node "Operands" []
                   [node "Operand" [("type", "r32"); ("input", "true");
                                    ("output", "true")] []];
                 node "Encodings" []
                   [node "Encoding" [] [node "Opcode" [("byte", "FF")] []]]]]])
  = Returned
      [Instruction.mk "INC" (Some "Increment by 1")
         [InstructionForm.mk "INC" (Some "incl") (Some "INCL") None None
            [Operand.mk "r32" true true] ∅ ∅ []
            [Encoding.mk [AnOpcode (Opcode.mk 255 PyNone)]]]]
      entry
  ∧ Operand.is_variable (Operand.mk "r32" true true) = true
  ∧ Operand.is_register (Operand.mk "r32" true true) = true
  ∧ Operand.is_memory (Operand.mk "r32" true true) = false.
Proof. repeat split; vm_compute; reflexivity. Qed.

Example wrong_root_is_refused :
  load (node "Instructions" [("name", "x86-64")] []) = Raised AssertionError []
  ∧ load (node "InstructionSet" [("name", "x86")] []) = Raised AssertionError []
  ∧ load (node "InstructionSet" [] []) = Raised KeyError [].
Proof. repeat split; vm_compute; reflexivity. Qed.

(** Two operands, memory then register, and a REX component with B and X on
    the combined link to operand 0. *)
Example combined_link_scenario :
  load combined_link_document
  = Returned
      (loaded "mov" [plain "m32"; plain "r32"]
         [AREX {| REX.is_mandatory := false; REX.W := PyInt 0;
                  REX.R := OperandRef 1; REX.X := OperandRef 0;
                  REX.B := OperandRef 0 |}])
      (mkFrame (Some {| REX.is_mandatory := false; REX.W := PyInt 0;
                        REX.R := OperandRef 1; REX.X := OperandRef 0;
                        REX.B := OperandRef 0 |}) []).
Proof. vm_compute. reflexivity. Qed.

(** A form without go-name loads, with [None] for the name. *)
Example no_go_name_scenario :
  load no_go_name_document
  = Returned (loaded "movl" [plain "r32"] [AnOpcode (Opcode.mk 144 PyNone)]) entry.
Proof. vm_compute. reflexivity. Qed.

(** * The claims *)

(** ** C1: literal R and B of a VEX component *)

(** C1, as the code runs.  The claim is that a VEX declaration with a literal
    R (or B) of "0" or "1" gets that literal, whatever REX component there
    is.  The source converts [rex.R] and [rex.B] instead: after a REX
    declaration with R = B = 0 a VEX declaration with R = B = 1 is recorded
    with R = B = 0 (its X, which the source converts from [vex.X], is 1), and
    without any earlier REX declaration the load stops on the unbound
    variable. *)
Theorem vex_literal_bits_come_from_rex :
  load vex_after_rex_document
  = Returned
      (loaded "vop" []
         [AREX {| REX.is_mandatory := false; REX.W := PyInt 0; REX.R := PyInt 0;
                  REX.X := PyInt 0; REX.B := PyInt 0 |};
          AVEX {| VEX.mmmmm := 1; VEX.pp := 0; VEX.W := PyInt 0; VEX.L := PyInt 0;
                  VEX.R := PyInt 0; VEX.X := PyInt 1; VEX.B := PyInt 0;
                  VEX.vvvv := PyInt 15 |}])
      (mkFrame (Some {| REX.is_mandatory := false; REX.W := PyInt 0;
                        REX.R := PyInt 0; REX.X := PyInt 0; REX.B := PyInt 0 |}) [])
  ∧ load vex_alone_document = Raised UnboundLocalError [].
Proof. split; vm_compute; reflexivity. Qed.

(** ** C2: the byte and the addend of an Opcode component *)

(** C2, as the code runs.  The claim is that a loaded Opcode component has a
    byte in [0 .. 255] and an addend of register type.  The Opcode branch
    checks neither: byte "1FF" with a memory operand as addend loads, as byte
    511 with an addend that is no register. *)
Theorem opcode_byte_and_addend_are_not_checked :
  load wide_opcode_document
  = Returned
      (loaded "op" [plain "m32"]
         [AnOpcode {| Opcode.byte := 511; Opcode.addend := OperandRef 0 |}])
      entry
  ∧ Operand.is_register <$> referenced [plain "m32"] (OperandRef 0) = Some false.
Proof. split; vm_compute; reflexivity. Qed.

(** ** C3: the m-mmmm and pp fields of a VEX component *)

(** C3, as the code runs.  The claim is that a loaded VEX component has
    m-mmmm in {1, 2, 3} and pp in {0, 1, 2, 3}, other declarations being
    refused.  The VEX branch converts both attributes and checks neither:
    m-mmmm "00100" and pp "111" load as 4 and 7. *)
Theorem vex_classes_are_not_checked :
  load vex_class_document
  = Returned
      (loaded "vop" [plain "xmm"; plain "m128"]
         [AVEX {| VEX.mmmmm := 4; VEX.pp := 7; VEX.W := PyInt 0; VEX.L := PyInt 0;
                  VEX.R := OperandRef 0; VEX.X := OperandRef 1;
                  VEX.B := OperandRef 1; VEX.vvvv := PyInt 15 |}])
      entry.
Proof. vm_compute. reflexivity. Qed.

(** ** C4: operand positions *)

(** C4 as stated fails: -1 is no position of a sequence of two operands, and
    an addend linked to operand -1 loads, referring to the last operand. *)
Lemma negative_index_is_accepted :
  int_str "-1" = ok (-1)
  ∧ ¬ aborted (load negative_index_document)
  ∧ load negative_index_document
    = Returned
        (loaded "push" [plain "r32"; plain "r64"]
           [AnOpcode {| Opcode.byte := 80; Opcode.addend := OperandRef 1 |}])
        entry.
Proof. split; [|split]; vm_compute; (reflexivity || exact id). Qed.

(** C4, amended.  With [n] operands in the form: an index text within the
    digit limit whose integer is outside [-n .. n - 1] raises [IndexError],
    and one whose integer is in [-n .. -1] counts from the end; a load that
    meets a linked attribute which is missing, or is an ASCII text that is no
    integer, or whose integer is outside [-n .. n - 1], is aborted; and every
    operand reference of a returned model is within bounds. *)
Theorem operand_links_are_list_indices :
  (∀ operands s i,
     within_digit_limit s → int_str s = ok i →
     i < - Z.of_nat (List.length operands) ∨ Z.of_nat (List.length operands) <= i →
     operand_at operands s = raise IndexError)
  ∧ (∀ operands s i,
       within_digit_limit s → int_str s = ok i →
       - Z.of_nat (List.length operands) <= i < 0 →
       operand_at operands s
       = ok (OperandRef (Z.to_nat (Z.of_nat (List.length operands) + i))))
  ∧ (∀ root operands x k,
       declares root operands x → k ∈ linked_attributes x →
       bad_link (List.length operands) (attrib x) k →
       aborted (load root))
  ∧ (∀ root model f, load root = Returned model f → model_in_bounds model).
Proof.
  split; [|split; [|split]].
  - intros operands s i _ Hs Hi. unfold operand_at. rewrite Hs. simpl.
    rewrite (index_position_out_of_range _ _ Hi). reflexivity.
  - intros operands s i _ Hs Hi. unfold operand_at. rewrite Hs. simpl.
    assert (index_position operands i
            = inr (Z.to_nat (Z.of_nat (List.length operands) + i))) as ->
      by (apply index_position_ok; right; split; [lia | reflexivity]).
    reflexivity.
  - intros root operands x k Hd Hk Hbad. apply aborted_not_returned.
    intros model f Hload.
    destruct (load_reads_components _ _ _ _ _ Hload Hd) as (f1 & cs & f2 & Hc).
    apply read_component_linked in Hc. rewrite Forall_forall in Hc.
    destruct (Hc k Hk) as (s & i & Hs & Hi & Hr).
    destruct Hbad as [Hnone|(s' & Hs' & [[_ He]|(i' & Hi' & Hout)])].
    + congruence.
    + assert (s' = s) as -> by congruence. rewrite He in Hi. discriminate Hi.
    + assert (s' = s) as -> by congruence.
      assert (i' = i) as -> by (unfold ok in *; congruence). lia.
  - intros root model f. apply load_in_bounds.
Qed.

Lemma operand_links_are_list_indices_witness :
  operand_at [plain "r32"; plain "r64"] "2" = raise IndexError
  ∧ operand_at [plain "r32"; plain "r64"] "-1" = ok (OperandRef 1)
  ∧ aborted (load index_past_end_document)
  ∧ model_in_bounds
      (loaded "push" [plain "r32"; plain "r64"]
         [AnOpcode {| Opcode.byte := 80; Opcode.addend := OperandRef 1 |}]).
Proof.
  destruct operand_links_are_list_indices as (Hout & Hneg & Habort & Hbounds).
  split; [|split; [|split]].
  - apply (Hout [plain "r32"; plain "r64"] "2" 2);
      [unfold within_digit_limit; simpl; lia | reflexivity | simpl; lia].
  - apply (Hneg [plain "r32"; plain "r64"] "-1" (-1));
      [unfold within_digit_limit; simpl; lia | reflexivity | simpl; lia].
  - apply (Habort index_past_end_document (List.map plain ["r32"; "r64"])
             (node "Opcode" [("byte", "50"); ("addend-operand-number", "2")] [])
             "addend-operand-number").
    + apply document_declares, list_elem_of_here.
    + vm_compute. apply list_elem_of_here.
    + right. exists "2". split; [vm_compute; reflexivity|].
      right. exists 2. split; [reflexivity | simpl; lia].
  - apply (Hbounds negative_index_document _ entry). vm_compute. reflexivity.
Defined.

(** ** C5: the ModRM rules *)

(** C5.  A ModRM declaration is refused, and the load aborted, when its mode
    literal is an integer other than 0b11 (or an ASCII text that is no
    integer in base 2), when its mode is linked through an attribute that is
    not the one of rm, or when its reg literal is an integer outside
    [0 .. 7] (or an ASCII text that is no integer); a
    ModRM component that was read has mode 3 when mode is literal, has mode
    and rm on the same operand when mode is linked, and has a reg literal in
    [0 .. 7]. *)
Theorem ModRM_rules :
  (∀ operands a, ModRM_violation a → failed (read_ModRM operands a))
  ∧ (∀ root x,
       component_of root x → has_tag "ModRM" x = true →
       ModRM_violation (attrib x) → aborted (load root))
  ∧ (∀ operands a m,
       read_ModRM operands a = ok m →
       (contains a "mode" = true → ModRM.mode m = PyInt 3)
       ∧ (contains a "mode" = false →
          ∃ k, ModRM.mode m = OperandRef k ∧ ModRM.rm m = OperandRef k)
       ∧ (contains a "reg" = true → ∃ z, ModRM.reg m = PyInt z ∧ 0 <= z <= 7)).
Proof.
  split; [|split].
  - apply ModRM_violation_fails.
  - intros root x Hd Htag Hv.
    apply (load_aborted_by _ _ Hd). intros operands.
    apply ModRM_aborts; [exact Htag|]. apply ModRM_violation_fails, Hv.
  - apply read_ModRM_fields.
Qed.

Lemma ModRM_rules_witness :
  failed (read_ModRM [plain "r32"] (attrs [("mode", "10"); ("reg", "0");
                                           ("rm-operand-number", "0")]))
  ∧ failed (read_ModRM [plain "r32"] (attrs [("mode", "11"); ("reg", "eight");
                                             ("rm-operand-number", "0")]))
  ∧ aborted (load split_modrm_document)
  ∧ (∃ k, ModRM.mode (ModRM.mk (OperandRef 1) (OperandRef 1) (PyInt 7)) = OperandRef k
          ∧ ModRM.rm (ModRM.mk (OperandRef 1) (OperandRef 1) (PyInt 7)) = OperandRef k).
Proof.
  destruct ModRM_rules as (Hfail & Habort & Hfields).
  split; [|split; [|split]].
  - apply (Hfail [plain "r32"]
             (attrs [("mode", "10"); ("reg", "0"); ("rm-operand-number", "0")])).
    left. exists "10". split; [reflexivity|].
    right. exists 2. split; [reflexivity | discriminate].
  - apply (Hfail [plain "r32"]
             (attrs [("mode", "11"); ("reg", "eight"); ("rm-operand-number", "0")])).
    right. right. exists "eight". split; [reflexivity|].
    left. split; reflexivity.
  - apply (Habort split_modrm_document
             (node "ModRM" [("mode-operand-number", "0"); ("rm-operand-number", "1");
                            ("reg-operand-number", "0")] [])).
    + apply document_component, list_elem_of_here.
    + reflexivity.
    + right. left. split; [reflexivity|]. vm_compute. discriminate.
  - apply (Hfields [plain "r32"; plain "m32"]
             (attrs [("mode-operand-number", "1"); ("rm-operand-number", "1");
                     ("reg", "7")])).
    + vm_compute. reflexivity.
    + vm_compute. reflexivity.
Defined.

(** ** C6: components keyed by a width *)

(** C6.  An Immediate declaration that is read has size 1, 2, 4 or 8 and is
    read as the ImmediateByte, ImmediateWord, ImmediateDWord or
    ImmediateQWord of its operand, and no other; a CodeOffset declaration
    likewise for sizes 1 and 4, a DataOffset declaration for sizes 4 and 8.
    A declaration with one of these sizes and an operand that resolves, both
    numerals within the digit limit, is read as that variant.  A declaration
    whose size is missing, is any other integer, or is an ASCII text that is
    no integer, aborts the load. *)
Theorem width_selects_the_variant :
  (∀ operands a c,
     read_Immediate operands a = ok c →
     ∃ z o, declared_size a = ok z ∧ declared_operand operands a = ok o
            ∧ ((z = 1 ∧ c = ImmediateByte o) ∨ (z = 2 ∧ c = ImmediateWord o)
               ∨ (z = 4 ∧ c = ImmediateDWord o) ∨ (z = 8 ∧ c = ImmediateQWord o)))
  ∧ (∀ operands a c,
       read_CodeOffset operands a = ok c →
       ∃ z o, declared_size a = ok z ∧ declared_operand operands a = ok o
              ∧ ((z = 1 ∧ c = CodeOffset8 o) ∨ (z = 4 ∧ c = CodeOffset32 o)))
  ∧ (∀ operands a c,
       read_DataOffset operands a = ok c →
       ∃ z o, declared_size a = ok z ∧ declared_operand operands a = ok o
              ∧ ((z = 4 ∧ c = DataOffset32 o) ∨ (z = 8 ∧ c = DataOffset64 o)))
  ∧ (∀ operands a z o,
       numerals_within_limit a →
       declared_size a = ok z → declared_operand operands a = ok o →
       (z = 1 → read_Immediate operands a = ok (ImmediateByte o))
       ∧ (z = 2 → read_Immediate operands a = ok (ImmediateWord o))
       ∧ (z = 4 → read_Immediate operands a = ok (ImmediateDWord o))
       ∧ (z = 8 → read_Immediate operands a = ok (ImmediateQWord o))
       ∧ (z = 1 → read_CodeOffset operands a = ok (CodeOffset8 o))
       ∧ (z = 4 → read_CodeOffset operands a = ok (CodeOffset32 o))
       ∧ (z = 4 → read_DataOffset operands a = ok (DataOffset32 o))
       ∧ (z = 8 → read_DataOffset operands a = ok (DataOffset64 o)))
  ∧ (∀ root x,
       component_of root x →
       (has_tag "Immediate" x = true ∧ size_refused [1; 2; 4; 8] (attrib x))
       ∨ (has_tag "CodeOffset" x = true ∧ size_refused [1; 4] (attrib x))
       ∨ (has_tag "DataOffset" x = true ∧ size_refused [4; 8] (attrib x)) →
       aborted (load root)).
Proof.
  split; [|split; [|split; [|split]]].
  - intros operands a c. apply read_Immediate_ok.
  - intros operands a c. apply read_CodeOffset_ok.
  - intros operands a c. apply read_DataOffset_ok.
  - intros operands a z o _ Hs Ho.
    repeat split; intros ->;
      first [apply read_Immediate_ok | apply read_CodeOffset_ok
            | apply read_DataOffset_ok];
      eexists _, o; (split; [exact Hs|]); (split; [exact Ho|]); tauto.
  - intros root x Hd Hv. apply (load_aborted_by _ _ Hd). intros operands.
    assert (Hno : ∀ sizes, size_refused sizes (attrib x) →
                           ∀ z, declared_size (attrib x) = ok z → z ∉ sizes).
    { intros sizes [Hnone|(s & Hs & [[_ He]|(z' & Hz' & Hout)])] z Hz;
        unfold declared_size, getitem in Hz.
      - rewrite Hnone in Hz. discriminate Hz.
      - rewrite Hs in Hz. simpl in Hz. rewrite He in Hz. discriminate Hz.
      - rewrite Hs in Hz. simpl in Hz. rewrite Hz' in Hz. injection Hz as <-.
        exact Hout. }
    destruct Hv as [[Htag Hz]|[[Htag Hz]|[Htag Hz]]].
    + apply Immediate_aborts; [exact Htag|]. apply failed_not_ok. intros c Hc.
      apply read_Immediate_ok in Hc. destruct Hc as (z & o & Hs & _ & Hc).
      apply (Hno _ Hz z Hs). apply list_elem_of_In. simpl. intuition congruence.
    + apply CodeOffset_aborts; [exact Htag|]. apply failed_not_ok. intros c Hc.
      apply read_CodeOffset_ok in Hc. destruct Hc as (z & o & Hs & _ & Hc).
      apply (Hno _ Hz z Hs). apply list_elem_of_In. simpl. intuition congruence.
    + apply DataOffset_aborts; [exact Htag|]. apply failed_not_ok. intros c Hc.
      apply read_DataOffset_ok in Hc. destruct Hc as (z & o & Hs & _ & Hc).
      apply (Hno _ Hz z Hs). apply list_elem_of_In. simpl. intuition congruence.
Qed.

Lemma width_selects_the_variant_witness :
  read_Immediate [plain "imm32"] (attrs [("size", "4"); ("operand-number", "0")])
  = ok (ImmediateDWord (OperandRef 0))
  ∧ aborted (load odd_immediate_document).
Proof.
  destruct width_selects_the_variant as (_ & _ & _ & Hyields & Habort).
  split.
  - apply (Hyields [plain "imm32"] (attrs [("size", "4"); ("operand-number", "0")])
             4 (OperandRef 0)).
    + intros k s Hk Hs. unfold within_digit_limit.
      apply elem_of_cons in Hk as [->|Hk].
      { vm_compute in Hs. injection Hs as <-. simpl. lia. }
      apply elem_of_cons in Hk as [->|Hk]; [|inversion Hk].
      vm_compute in Hs. injection Hs as <-. simpl. lia.
    + reflexivity.
    + reflexivity.
    + reflexivity.
  - apply (Habort odd_immediate_document
             (node "Immediate" [("size", "3"); ("operand-number", "0")] [])).
    + apply document_component, list_elem_of_here.
    + left. split; [reflexivity|].
      right. exists "3". split; [vm_compute; reflexivity|].
      right. exists 3. split; [reflexivity|].
      intros Hin. repeat (apply elem_of_cons in Hin as [Hin|Hin]; [discriminate Hin|]).
      inversion Hin.
Defined.

(** ** C7: the combined BX link of a REX component *)

(** C7.  A REX component read from a declaration with the combined
    BX-operand-number attribute has B and X on one operand, the one at that
    index; a REX declaration with the combined attribute and an attribute of
    B or of X, or without any attribute for B, is refused and aborts the
    load. *)
Theorem REX_combined_link :
  (∀ operands a r,
     read_REX operands a = ok r → contains a "BX-operand-number" = true →
     ∃ n k, a !! "BX-operand-number" = Some n
            ∧ operand_at operands n = ok (OperandRef k)
            ∧ REX.B r = OperandRef k ∧ REX.X r = OperandRef k)
  ∧ (∀ operands a, REX_violation a → failed (read_REX operands a))
  ∧ (∀ root x,
       component_of root x → has_tag "REX" x = true →
       REX_violation (attrib x) → aborted (load root)).
Proof.
  split; [|split].
  - apply read_REX_combined.
  - apply REX_violation_fails.
  - intros root x Hd Htag Hv.
    apply (load_aborted_by _ _ Hd). intros operands.
    apply REX_aborts; [exact Htag|]. apply REX_violation_fails, Hv.
Qed.

Lemma REX_combined_link_witness :
  (∃ n k, attrs [("mandatory", "false"); ("W", "0"); ("R-operand-number", "1");
                 ("BX-operand-number", "0")] !! "BX-operand-number" = Some n
          ∧ operand_at [plain "m32"; plain "r32"] n = ok (OperandRef k)
          ∧ REX.B (REX.mk false (PyInt 0) (OperandRef 1) (OperandRef 0) (OperandRef 0))
            = OperandRef k
          ∧ REX.X (REX.mk false (PyInt 0) (OperandRef 1) (OperandRef 0) (OperandRef 0))
            = OperandRef k)
  ∧ failed (read_REX [plain "m32"; plain "r32"]
              (attrs [("mandatory", "false"); ("W", "0"); ("R", "0"); ("X", "0")]))
  ∧ aborted (load double_x_document).
Proof.
  destruct REX_combined_link as (Hsame & Hfail & Habort).
  split; [|split].
  - apply (Hsame [plain "m32"; plain "r32"]
             (attrs [("mandatory", "false"); ("W", "0"); ("R-operand-number", "1");
                     ("BX-operand-number", "0")])).
    + vm_compute. reflexivity.
    + vm_compute. reflexivity.
  - apply Hfail. right. repeat split; vm_compute; reflexivity.
  - apply (Habort double_x_document
             (node "REX" [("mandatory", "false"); ("W", "0"); ("R-operand-number", "1");
                          ("X", "0"); ("BX-operand-number", "0")] [])).
    + apply document_component, list_elem_of_here.
    + reflexivity.
    + left. split; [vm_compute; reflexivity|]. right. left. vm_compute. reflexivity.
Defined.

(** ** C8: declarations of unknown tag *)



(** ** C9: the alternate display names *)

(** C9 as stated fails for the GNU-assembler name: a form without the
    gas-name attribute does not load, although its go-name is there. *)
Lemma missing_gas_name_aborts :
  attrib (node "InstructionForm" [("go-name", "MOVL")] []) !! "gas-name" = None
  ∧ load no_gas_name_document = Raised KeyError [].
Proof. split; vm_compute; reflexivity. Qed.

(** C9, amended.  The Go/Plan 9 name is optional: a form read from a
    declaration without the go-name attribute has [None] for it, not an empty
    string, and leaving the attribute out of a declaration changes nothing of
    what reading it gives but that field.  The GNU-assembler name is
    required: a declaration without the gas-name attribute raises, and
    aborts the load. *)
Theorem go_name_is_optional_gas_name_is_not :
  (∀ name x f forms f',
     read_instruction_form name x f = Returned forms f' →
     attrib x !! "go-name" = None →
     ∃ fm, forms = [fm] ∧ InstructionForm.go_name fm = None
           ∧ InstructionForm.go_name fm ≠ Some "")
  ∧ (∀ name x f,
       read_instruction_form name (without_attribute "go-name" x) f
       = on_value (List.map (with_go_name None)) (read_instruction_form name x f))
  ∧ (∀ name x f,
       attrib x !! "gas-name" = None →
       read_instruction_form name x f = Raised KeyError (stdout f))
  ∧ (∀ root i x,
       i ∈ children root → x ∈ children i → attrib x !! "gas-name" = None →
       aborted (load root)).
Proof.
  split; [|split; [|split]].
  - intros name x f forms f' H Hgo.
    destruct (go_name_is_recorded _ _ _ _ _ H) as (fm & -> & Hfm).
    exists fm. rewrite Hfm, Hgo. split; [reflexivity|]. split; [reflexivity|discriminate].
  - apply go_name_is_optional.
  - apply gas_name_is_required.
  - intros root i x Hi Hx Hgas. apply aborted_not_returned. intros model f' Hload.
    destruct (load_reads_forms _ _ _ _ _ Hload Hi Hx) as (name & f1 & forms & f2 & H).
    rewrite (gas_name_is_required _ _ _ Hgas) in H. discriminate H.
Qed.

Lemma go_name_is_optional_gas_name_is_not_witness :
  (∃ fm, loaded "movl" [plain "r32"] [AnOpcode (Opcode.mk 144 PyNone)]
         = [Instruction.mk "OP" (Some "An operation") [fm]]
         ∧ InstructionForm.go_name fm = None)
  ∧ aborted (load no_gas_name_document).
Proof.
  destruct go_name_is_optional_gas_name_is_not as (Hgo & _ & _ & Hgas).
  split.
  - destruct (Hgo "OP"
                (node "InstructionForm" [("gas-name", "movl")]
                   [node "Operands" [] [node "Operand" [("type", "r32")] []];
                    node "Encodings" []
                      [node "Encoding" [] [node "Opcode" [("byte", "90")] []]]])
                entry
                [InstructionForm.mk "OP" (Some "movl") None None None [plain "r32"] ∅ ∅ []
                   [Encoding.mk [AnOpcode (Opcode.mk 144 PyNone)]]]
                entry) as (fm & Hfm & Hnone & _).
    + vm_compute. reflexivity.
    + vm_compute. reflexivity.
    + exists fm. split; [|exact Hnone]. unfold loaded. rewrite Hfm. reflexivity.
  - apply (Hgas no_gas_name_document
             (node "Instruction" [("name", "OP"); ("summary", "An operation")]
                [node "InstructionForm" [("go-name", "MOVL")]
                   [node "Operands" [] [node "Operand" [("type", "r32")] []];
                    node "Encodings" []
                      [node "Encoding" [] [node "Opcode" [("byte", "90")] []]]]])
             (node "InstructionForm" [("go-name", "MOVL")]
                [node "Operands" [] [node "Operand" [("type", "r32")] []];
                 node "Encodings" []
                   [node "Encoding" [] [node "Opcode" [("byte", "90")] []]]])).
    + apply list_elem_of_here.
    + apply list_elem_of_here.
    + vm_compute. reflexivity.
Defined.

(** ** C10: zmm operands *)

(** C10.  An operand of type "zmm" is no register and no memory location for
    the predicates of the model. *)
Theorem zmm_is_neither_register_nor_memory (o : Operand.t) :
  Operand.type o = "zmm" →
  Operand.is_register o = false ∧ Operand.is_memory o = false.
Proof.
  intros H. unfold Operand.is_register, Operand.is_memory. rewrite H.
  split; vm_compute; reflexivity.
Qed.

Lemma zmm_is_neither_register_nor_memory_witness :
  Operand.is_register (Operand.mk "zmm" true false) = false
  ∧ Operand.is_memory (Operand.mk "zmm" true false) = false.
Proof. apply zmm_is_neither_register_nor_memory. reflexivity. Defined.

(** * Further properties of the model and of the loader *)

(** ** Operand predicates *)

(** X1.  No operand is both a register and a memory location: the two
    vocabularies of [is_register] and [is_memory] share no type. *)
Theorem register_and_memory_exclude (o : Operand.t) :
  Operand.is_register o = true → Operand.is_memory o = false.
Proof.
  destruct o as [t i u]. unfold Operand.is_register, Operand.is_memory. simpl.
  intros H. apply bool_decide_eq_true in H.
  repeat (apply elem_of_cons in H as [->|H]; [vm_compute; reflexivity|]).
  inversion H.
Qed.

Lemma register_and_memory_exclude_witness :
  Operand.is_memory (Operand.mk "xmm0" true false) = false.
Proof. apply register_and_memory_exclude. vm_compute. reflexivity. Defined.

(** ** Defaults for ignored bits *)

Lemma fill_not_None v d : fill v d ≠ PyNone.
Proof. destruct v; discriminate. Qed.

Lemma fill_kept v d : v ≠ PyNone → fill v d = v.
Proof. destruct v; [congruence | reflexivity | reflexivity]. Qed.

Lemma fill_fill v d d' : fill (fill v d) d' = fill v d.
Proof. destruct v; reflexivity. Qed.

Lemma assert_bit (z : Z) :
  assert (bool_decide (z ∈ [0; 1])) = inr tt ↔ z = 0 ∨ z = 1.
Proof.
  rewrite assert_ok, bool_decide_eq_true, !elem_of_cons.
  split; [intros [?|[?|H]]; [auto | auto | inversion H] | intros [?|?]; auto].
Qed.

Lemma REX_set_ignored_ok w r x b self self' :
  REX_set_ignored w r x b self = ok self' ↔
    (w = 0 ∨ w = 1) ∧ (r = 0 ∨ r = 1) ∧ (x = 0 ∨ x = 1) ∧ (b = 0 ∨ b = 1)
    ∧ self' = REX.mk (REX.is_mandatory self) (fill (REX.W self) w)
                (fill (REX.R self) r) (fill (REX.X self) x) (fill (REX.B self) b).
Proof.
  unfold REX_set_ignored, ok. split.
  - intros H. invert_ok.
    repeat match goal with
      | H : bool_decide _ = true |- _ =>
          apply assert_ok with (u := tt), assert_bit in H
      end.
    auto.
  - intros (Hw & Hr & Hx & Hb & ->).
    apply (assert_bit w) in Hw. apply (assert_bit r) in Hr.
    apply (assert_bit x) in Hx. apply (assert_bit b) in Hb.
    rewrite Hw, Hr, Hx, Hb. reflexivity.
Qed.

Lemma VEX_set_ignored_ok w l r x b self self' :
  VEX_set_ignored w l r x b self = ok self' ↔
    (w = 0 ∨ w = 1) ∧ (l = 0 ∨ l = 1) ∧ (r = 0 ∨ r = 1) ∧ (x = 0 ∨ x = 1)
    ∧ (b = 0 ∨ b = 1)
    ∧ self' = VEX.mk (VEX.mmmmm self) (VEX.pp self) (fill (VEX.W self) w)
                (fill (VEX.L self) l) (fill (VEX.R self) r) (fill (VEX.X self) x)
                (fill (VEX.B self) b) (VEX.vvvv self).
Proof.
  unfold VEX_set_ignored, ok. split.
  - intros H. invert_ok.
    repeat match goal with
      | H : bool_decide _ = true |- _ =>
          apply assert_ok with (u := tt), assert_bit in H
      end.
    auto 6.
  - intros (Hw & Hl & Hr & Hx & Hb & ->).
    apply (assert_bit w) in Hw. apply (assert_bit l) in Hl.
    apply (assert_bit r) in Hr.
    apply (assert_bit x) in Hx. apply (assert_bit b) in Hb.
    rewrite Hw, Hl, Hr, Hx, Hb. reflexivity.
Qed.

(** X2.  [REX.set_ignored] goes through exactly when its four defaults are 0
    or 1, and fails an assertion otherwise.  Afterwards no bit of the object
    is [None]: a bit that was an integer or an operand keeps it, a bit that
    was [None] holds its default; [is_mandatory] is as before. *)
Theorem REX_set_ignored_fills w r x b self :
  ((∃ self', REX_set_ignored w r x b self = ok self') ↔
     (w = 0 ∨ w = 1) ∧ (r = 0 ∨ r = 1) ∧ (x = 0 ∨ x = 1) ∧ (b = 0 ∨ b = 1))
  ∧ ((∀ self', REX_set_ignored w r x b self ≠ ok self') →
     REX_set_ignored w r x b self = raise AssertionError)
  ∧ ∀ self',
      REX_set_ignored w r x b self = ok self' →
      REX.is_mandatory self' = REX.is_mandatory self
      ∧ Forall (fun v => v ≠ PyNone) (fields (AREX self'))
      ∧ Forall2 (fun v v' => v ≠ PyNone → v' = v)
                (fields (AREX self)) (fields (AREX self'))
      ∧ Forall2 (fun v dv' => v = PyNone → snd dv' = PyInt (fst dv'))
                (fields (AREX self))
                (zip [w; r; x; b] (fields (AREX self'))).
Proof.
  split; [|split].
  - split.
    + intros [self' H]. apply REX_set_ignored_ok in H. tauto.
    + intros H. eexists. apply REX_set_ignored_ok. repeat split; try tauto.
  - intros H. unfold REX_set_ignored in *.
    repeat match goal with
      | |- context [assert ?c] => destruct c; simpl; [|reflexivity]
      end.
    exfalso. eapply H. simpl. reflexivity.
  - intros self' H. apply REX_set_ignored_ok in H.
    destruct H as (_ & _ & _ & _ & ->). simpl.
    split; [reflexivity|]. split; [|split].
    + repeat (constructor; [apply fill_not_None|]); constructor.
    + repeat (constructor; [apply fill_kept|]); constructor.
    + repeat (constructor; [simpl; intros ->; reflexivity|]); constructor.
Qed.

Lemma REX_set_ignored_fills_witness :
  REX_set_ignored 0 1 1 0 (REX.mk true (PyInt 1) PyNone (OperandRef 0) PyNone)
  = ok (REX.mk true (PyInt 1) (PyInt 1) (OperandRef 0) (PyInt 0))
  ∧ REX_set_ignored 0 2 0 0 (REX.mk true (PyInt 1) PyNone (OperandRef 0) PyNone)
    = raise AssertionError
  ∧ Forall (fun v => v ≠ PyNone)
      (fields (AREX (REX.mk true (PyInt 1) (PyInt 1) (OperandRef 0) (PyInt 0)))).
Proof.
  split; [|split].
  - reflexivity.
  - apply (proj1 (proj2 (REX_set_ignored_fills 0 2 0 0
                           (REX.mk true (PyInt 1) PyNone (OperandRef 0) PyNone)))).
    intros self'. vm_compute. discriminate.
  - apply (proj2 (proj2 (REX_set_ignored_fills 0 1 1 0
                           (REX.mk true (PyInt 1) PyNone (OperandRef 0) PyNone)))
             (REX.mk true (PyInt 1) (PyInt 1) (OperandRef 0) (PyInt 0))).
    reflexivity.
Defined.

(** X3.  A second [REX.set_ignored] changes nothing, whatever its defaults:
    the defaults of the first call stay. *)
Theorem REX_set_ignored_once w r x b w' r' x' b' self self' :
  REX_set_ignored w r x b self = ok self' →
  (w' = 0 ∨ w' = 1) → (r' = 0 ∨ r' = 1) → (x' = 0 ∨ x' = 1) → (b' = 0 ∨ b' = 1) →
  REX_set_ignored w' r' x' b' self' = ok self'.
Proof.
  intros H Hw Hr Hx Hb. apply REX_set_ignored_ok in H.
  destruct H as (_ & _ & _ & _ & ->).
  apply REX_set_ignored_ok. repeat split; try assumption. simpl.
  rewrite !fill_fill. reflexivity.
Qed.

Lemma REX_set_ignored_once_witness :
  REX_set_ignored 1 0 0 1 (REX.mk true (PyInt 1) (PyInt 1) (OperandRef 0) (PyInt 0))
  = ok (REX.mk true (PyInt 1) (PyInt 1) (OperandRef 0) (PyInt 0)).
Proof.
  apply (REX_set_ignored_once 0 1 1 0 1 0 0 1
           (REX.mk true (PyInt 1) PyNone (OperandRef 0) PyNone)).
  - reflexivity.
  - right. reflexivity.
  - left. reflexivity.
  - left. reflexivity.
  - right. reflexivity.
Defined.

(** X4.  [VEX.set_ignored] goes through exactly when its five defaults are 0
    or 1, and fails an assertion otherwise.  Afterwards none of W, L, R, X, B
    is [None]: a bit that was set keeps its value, a bit that was [None]
    holds its default; m-mmmm, pp and vvvv are as before. *)
Theorem VEX_set_ignored_fills w l r x b self :
  ((∃ self', VEX_set_ignored w l r x b self = ok self') ↔
     (w = 0 ∨ w = 1) ∧ (l = 0 ∨ l = 1) ∧ (r = 0 ∨ r = 1) ∧ (x = 0 ∨ x = 1)
     ∧ (b = 0 ∨ b = 1))
  ∧ ((∀ self', VEX_set_ignored w l r x b self ≠ ok self') →
     VEX_set_ignored w l r x b self = raise AssertionError)
  ∧ ∀ self',
      VEX_set_ignored w l r x b self = ok self' →
      VEX.mmmmm self' = VEX.mmmmm self ∧ VEX.pp self' = VEX.pp self
      ∧ VEX.vvvv self' = VEX.vvvv self
      ∧ Forall (fun v => v ≠ PyNone)
          [VEX.W self'; VEX.L self'; VEX.R self'; VEX.X self'; VEX.B self']
      ∧ Forall2 (fun v v' => v ≠ PyNone → v' = v)
                [VEX.W self; VEX.L self; VEX.R self; VEX.X self; VEX.B self]
                [VEX.W self'; VEX.L self'; VEX.R self'; VEX.X self'; VEX.B self']
      ∧ Forall2 (fun v dv' => v = PyNone → snd dv' = PyInt (fst dv'))
                [VEX.W self; VEX.L self; VEX.R self; VEX.X self; VEX.B self]
                (zip [w; l; r; x; b]
                   [VEX.W self'; VEX.L self'; VEX.R self'; VEX.X self'; VEX.B self']).
Proof.
  split; [|split].
  - split.
    + intros [self' H]. apply VEX_set_ignored_ok in H. tauto.
    + intros H. eexists. apply VEX_set_ignored_ok. repeat split; try tauto.
  - intros H. unfold VEX_set_ignored in *.
    repeat match goal with
      | |- context [assert ?c] => destruct c; simpl; [|reflexivity]
      end.
    exfalso. eapply H. simpl. reflexivity.
  - intros self' H. apply VEX_set_ignored_ok in H.
    destruct H as (_ & _ & _ & _ & _ & ->). simpl.
    split; [reflexivity|]. split; [reflexivity|]. split; [reflexivity|].
    split; [|split].
    + repeat (constructor; [apply fill_not_None|]); constructor.
    + repeat (constructor; [apply fill_kept|]); constructor.
    + repeat (constructor; [simpl; intros ->; reflexivity|]); constructor.
Qed.

Lemma VEX_set_ignored_fills_witness :
  VEX_set_ignored 0 (-1) 0 0 0 (VEX.mk 1 0 PyNone (PyInt 1) PyNone PyNone PyNone (PyInt 15))
  = raise AssertionError
  ∧ VEX.vvvv (VEX.mk 1 0 (PyInt 0) (PyInt 1) (PyInt 1) (PyInt 0) (PyInt 0) (PyInt 15))
    = PyInt 15.
Proof.
  split.
  - apply (proj1 (proj2 (VEX_set_ignored_fills 0 (-1) 0 0 0
             (VEX.mk 1 0 PyNone (PyInt 1) PyNone PyNone PyNone (PyInt 15))))).
    intros self'. vm_compute. discriminate.
  - apply (proj2 (proj2 (VEX_set_ignored_fills 0 0 1 0 0
             (VEX.mk 1 0 PyNone (PyInt 1) PyNone PyNone PyNone (PyInt 15))))
             (VEX.mk 1 0 (PyInt 0) (PyInt 1) (PyInt 1) (PyInt 0) (PyInt 0) (PyInt 15))).
    reflexivity.
Defined.

(** X5.  A second [VEX.set_ignored] changes nothing, whatever its
    defaults. *)
Theorem VEX_set_ignored_once w l r x b w' l' r' x' b' self self' :
  VEX_set_ignored w l r x b self = ok self' →
  (w' = 0 ∨ w' = 1) → (l' = 0 ∨ l' = 1) → (r' = 0 ∨ r' = 1) → (x' = 0 ∨ x' = 1) →
  (b' = 0 ∨ b' = 1) →
  VEX_set_ignored w' l' r' x' b' self' = ok self'.
Proof.
  intros H Hw Hl Hr Hx Hb. apply VEX_set_ignored_ok in H.
  destruct H as (_ & _ & _ & _ & _ & ->).
  apply VEX_set_ignored_ok. repeat split; try assumption. simpl.
  rewrite !fill_fill. reflexivity.
Qed.

Lemma VEX_set_ignored_once_witness :
  VEX_set_ignored 1 1 0 1 1
    (VEX.mk 1 0 (PyInt 0) (PyInt 1) (PyInt 1) (PyInt 0) (PyInt 0) (PyInt 15))
  = ok (VEX.mk 1 0 (PyInt 0) (PyInt 1) (PyInt 1) (PyInt 0) (PyInt 0) (PyInt 15)).
Proof.
  apply (VEX_set_ignored_once 0 0 1 0 0 1 1 0 1 1
           (VEX.mk 1 0 PyNone (PyInt 1) PyNone PyNone PyNone (PyInt 15))).
  - reflexivity.
  - right. reflexivity.
  - right. reflexivity.
  - left. reflexivity.
  - right. reflexivity.
  - right. reflexivity.
Defined.

(** ** Loops *)

Lemma for_each_ok {A B} (body : A -> result B) xs ys :
  for_each body xs = ok ys ↔ Forall2 (fun x y => body x = ok y) xs ys.
Proof.
  revert ys. induction xs as [|x xs IH]; intros ys; simpl; split.
  - intros H. unfold ok in H. injection H as <-. constructor.
  - intros H. inversion H. reflexivity.
  - intros H. unfold ok in H. invert_ok. constructor; [assumption|].
    apply IH. assumption.
  - intros H. inversion H as [|? y ? ys' Hx Hxs]; subst.
    rewrite Hx. simpl. apply IH in Hxs. rewrite Hxs. reflexivity.
Qed.

Lemma for_in_Forall2 {A B} (P : A -> B -> Prop) (body : A -> M (list B)) xs :
  (∀ x f1 zs f2, body x f1 = Returned zs f2 → ∃ z, zs = [z] ∧ P x z) →
  ∀ f ys f', for_in body xs f = Returned ys f' → Forall2 P xs ys.
Proof.
  intros Hbody. induction xs as [|x xs IH]; intros f ys f' H; simpl in H;
    invert_returned.
  - constructor.
  - match goal with
    | H1 : body x _ = Returned _ _ |- _ => destruct (Hbody _ _ _ _ H1) as (z & -> & Hz)
    end.
    simpl. constructor; [exact Hz|]. eapply IH. eassumption.
Qed.

Lemma printed_by_app xs ys : printed_by (xs ++ ys) = (printed_by xs ++ printed_by ys)%list.
Proof. unfold printed_by. rewrite List.filter_app, List.map_app. reflexivity. Qed.

Lemma for_in_printed {A B} (h : A -> list Element) (body : A -> M (list B)) xs :
  (∀ x f1 zs f2, body x f1 = Returned zs f2 →
                 stdout f2 = (stdout f1 ++ printed_by (h x))%list) →
  ∀ f ys f', for_in body xs f = Returned ys f' →
             stdout f' = (stdout f ++ printed_by (x ← xs; h x))%list.
Proof.
  intros Hbody. induction xs as [|x xs IH]; intros f ys f' H; simpl in H;
    invert_returned.
  - simpl. unfold printed_by. simpl. rewrite app_nil_r. reflexivity.
  - match goal with
    | H1 : body x _ = Returned _ _, H2 : for_in body xs _ = Returned _ _ |- _ =>
        rewrite (IH _ _ _ H2), (Hbody _ _ _ _ H1)
    end.
    rewrite bind_cons, printed_by_app, app_assoc. reflexivity.
Qed.

(** ** What each level of the document gives *)

Lemma read_component_printed operands x f cs f' :
  read_component operands x f = Returned cs f' →
  stdout f' = (stdout f ++ printed_by [x])%list.
Proof.
  intros H. unfold printed_by. simpl. destruct (known_tag x) eqn:Hk; simpl.
  - destruct (known_tag_one_component _ _ _ _ _ Hk H) as [_ ->].
    rewrite app_nil_r. reflexivity.
  - rewrite (unknown_tag_skipped _ _ _ Hk) in H. injection H as _ <-. reflexivity.
Qed.

Lemma bind_singletons {A} (xs : list A) : (x ← xs; [x]) = xs.
Proof.
  induction xs as [|x xs IH]; [reflexivity|].
  rewrite bind_cons, IH. reflexivity.
Qed.

Lemma read_encoding_returned operands e f encs f' :
  read_encoding operands e f = Returned encs f' →
  ∃ enc, encs = [enc]
         ∧ for_in (read_component operands) (children e) f
           = Returned (Encoding.components enc) f'.
Proof.
  intros H. unfold read_encoding in H. invert_returned.
  eexists. split; [reflexivity|]. simpl. assumption.
Qed.

Lemma read_encoding_printed operands e f encs f' :
  read_encoding operands e f = Returned encs f' →
  stdout f' = (stdout f ++ printed_by (children e))%list.
Proof.
  intros H. destruct (read_encoding_returned _ _ _ _ _ H) as (enc & _ & Hc).
  rewrite (for_in_printed (fun x => [x]) _ _ (read_component_printed operands) _ _ _ Hc).
  rewrite bind_singletons. reflexivity.
Qed.

Lemma read_instruction_form_returned name x f forms f' :
  read_instruction_form name x f = Returned forms f' →
  ∃ fm, forms = [fm] ∧ form_of name x fm
        ∧ for_in (read_encoding (InstructionForm.operands fm))
            (findall "Encodings" "Encoding" x) f
          = Returned (InstructionForm.encodings fm) f'.
Proof.
  intros H. unfold read_instruction_form in H. invert_returned. invert_ok.
  eexists. split; [reflexivity|]. split; [|simpl; assumption].
  unfold form_of. simpl.
  repeat match goal with
    | H : getitem _ _ = inr _ |- _ => apply getitem_ok in H
    end.
  repeat split; eauto.
  - match goal with
    | H : read_implicit_operands _ _ _ = inr ?p |- _ => destruct p; exact H
    end.
  - eapply for_in_Forall2; [|eassumption].
    intros e f1 zs f2 He.
    destruct (read_encoding_returned _ _ _ _ _ He) as (enc & -> & Hc).
    exists enc. split; [reflexivity|].
    apply (for_in_known_count _ _ _ _ _ Hc).
Qed.

Lemma read_instruction_form_printed name x f forms f' :
  read_instruction_form name x f = Returned forms f' →
  stdout f' = (stdout f
               ++ printed_by (e ← findall "Encodings" "Encoding" x; children e))%list.
Proof.
  intros H. destruct (read_instruction_form_returned _ _ _ _ _ H) as (fm & _ & _ & He).
  exact (for_in_printed children _ _
           (read_encoding_printed (InstructionForm.operands fm)) _ _ _ He).
Qed.

Lemma read_instruction_returned x f ins f' :
  read_instruction x f = Returned ins f' →
  ∃ i, ins = [i] ∧ instruction_of x i
       ∧ for_in (read_instruction_form (Instruction.name i)) (children x) f
         = Returned (Instruction.forms i) f'.
Proof.
  intros H. unfold read_instruction in H. invert_returned. invert_ok.
  eexists. split; [reflexivity|]. split; [|simpl; assumption].
  unfold instruction_of. simpl.
  repeat match goal with
    | H : assert _ = inr _ |- _ => apply assert_ok in H
    | H : getitem _ _ = inr _ |- _ => apply getitem_ok in H
    end.
  split; [apply has_tag_true; assumption|].
  split; [assumption|]. split; [eauto|].
  eapply for_in_Forall2; [|eassumption].
  intros fx f1 zs f2 Hf.
  destruct (read_instruction_form_returned _ _ _ _ _ Hf) as (fm & -> & Hfm & _).
  eauto.
Qed.

Lemma read_instruction_printed x f ins f' :
  read_instruction x f = Returned ins f' →
  stdout f' = (stdout f
               ++ printed_by (fx ← children x;
                              e ← findall "Encodings" "Encoding" fx; children e))%list.
Proof.
  intros H. destruct (read_instruction_returned _ _ _ _ H) as (i & _ & _ & Hf).
  exact (for_in_printed
           (fun fx => e ← findall "Encodings" "Encoding" fx; children e) _ _
           (read_instruction_form_printed (Instruction.name i)) _ _ _ Hf).
Qed.

Lemma load_returned root model f' :
  load root = Returned model f' →
  tag root = "InstructionSet" ∧ attrib root !! "name" = Some "x86-64"
  ∧ for_in read_instruction (children root) entry = Returned model f'.
Proof.
  unfold load, read_instruction_set. intros H. invert_returned. invert_ok.
  repeat match goal with
    | H : assert _ = inr _ |- _ => apply assert_ok in H
    | H : getitem _ _ = inr _ |- _ => apply getitem_ok in H
    end.
  reflect_tests. subst.
  split; [apply has_tag_true; assumption|]. split; assumption.
Qed.

(** Every component of a returned model was appended by the loop body, on a
    component declaration of the document. *)
Lemma load_components_read root model f' c :
  load root = Returned model f' → c ∈ components_of model →
  ∃ operands x f1 cs f2,
    component_of root x ∧ read_component operands x f1 = Returned cs f2 ∧ c ∈ cs.
Proof.
  intros H Hc. apply load_returned in H as (_ & _ & H).
  unfold components_of in Hc.
  apply list_elem_of_bind in Hc as (i & Hc & Hi).
  apply list_elem_of_bind in Hc as (fm & Hc & Hfm).
  apply list_elem_of_bind in Hc as (enc & Hc & Henc).
  destruct (for_in_elem _ _ _ _ _ H i Hi) as (xi & g1 & y1 & g2 & Hxi & Hri & Hin1).
  destruct (read_instruction_returned _ _ _ _ Hri) as (i' & -> & _ & Hforms).
  apply list_elem_of_singleton in Hin1 as <-.
  destruct (for_in_elem _ _ _ _ _ Hforms fm Hfm)
    as (xf & g3 & y2 & g4 & Hxf & Hrf & Hin2).
  destruct (read_instruction_form_returned _ _ _ _ _ Hrf) as (fm' & -> & _ & Hencs).
  apply list_elem_of_singleton in Hin2 as <-.
  destruct (for_in_elem _ _ _ _ _ Hencs enc Henc)
    as (xe & g5 & y3 & g6 & Hxe & Hre & Hin3).
  destruct (read_encoding_returned _ _ _ _ _ Hre) as (enc' & -> & Hcomps).
  apply list_elem_of_singleton in Hin3 as <-.
  destruct (for_in_elem _ _ _ _ _ Hcomps c Hc)
    as (x & g7 & cs & g8 & Hx & Hrc & Hin4).
  exists (InstructionForm.operands fm), x, g7, cs, g8.
  split; [|split; assumption].
  exists xi, xf, xe. auto.
Qed.

(** What the loop body appended, by branch. *)
Lemma read_component_cases operands x f cs f' :
  read_component operands x f = Returned cs f' →
  (∃ p, read_Prefix (attrib x) = ok p ∧ cs = [APrefix p])
  ∨ (∃ r, read_REX operands (attrib x) = ok r ∧ cs = [AREX r])
  ∨ (∃ rex v, read_VEX operands rex (attrib x) = ok v ∧ cs = [AVEX v])
  ∨ (∃ o, read_Opcode operands (attrib x) = ok o ∧ cs = [AnOpcode o])
  ∨ (∃ m, read_ModRM operands (attrib x) = ok m ∧ cs = [AModRM m])
  ∨ (∃ c, (read_Immediate operands (attrib x) = ok c
           ∨ read_CodeOffset operands (attrib x) = ok c
           ∨ read_DataOffset operands (attrib x) = ok c) ∧ cs = [c])
  ∨ cs = [].
Proof.
  intros H. by_tag H; unfold ok; eauto 12.
Qed.

Lemma declared_operand_reference operands a o :
  declared_operand operands a = ok o → is_reference o.
Proof.
  unfold declared_operand, ok. intros H. invert_ok.
  match goal with
  | H : operand_at _ _ = inr _ |- _ =>
      apply operand_at_ok in H; destruct H as (? & k & _ & _ & ->)
  end.
  exists k. reflexivity.
Qed.

(** A component read by one of the three width-keyed branches is one of their
    eight variants, on an operand. *)
Lemma width_component operands a c :
  read_Immediate operands a = ok c ∨ read_CodeOffset operands a = ok c
  ∨ read_DataOffset operands a = ok c →
  ∃ v, width_field c = Some v ∧ is_reference v.
Proof.
  intros [H|[H|H]].
  - apply read_Immediate_ok in H. destruct H as (z & o & _ & Ho & Hc).
    apply declared_operand_reference in Ho.
    destruct Hc as [[_ ->]|[[_ ->]|[[_ ->]|[_ ->]]]]; simpl; eauto.
  - apply read_CodeOffset_ok in H. destruct H as (z & o & _ & Ho & Hc).
    apply declared_operand_reference in Ho.
    destruct Hc as [[_ ->]|[_ ->]]; simpl; eauto.
  - apply read_DataOffset_ok in H. destruct H as (z & o & _ & Ho & Hc).
    apply declared_operand_reference in Ho.
    destruct Hc as [[_ ->]|[_ ->]]; simpl; eauto.
Qed.

(** Picks the branch that appended a component of the given kind. *)
Ltac which_branch H Hin :=
  apply read_component_cases in H;
  destruct H as [(? & H & ->)|[(? & H & ->)|[(? & ? & H & ->)|[(? & H & ->)
                |[(? & H & ->)|[(? & H & ->)| ->]]]]]];
  [apply list_elem_of_singleton in Hin .. | inversion Hin];
  try discriminate Hin.

Lemma read_component_Prefix operands x f cs f' p :
  read_component operands x f = Returned cs f' → APrefix p ∈ cs →
  Prefix.byte p ∈ [102; 242; 243].
Proof.
  intros H Hp. which_branch H Hp.
  - injection Hp as ->. unfold read_Prefix, ok in H. invert_ok.
    reflect_tests. assumption.
  - apply width_component in H as (v & Hv & _). subst. discriminate Hv.
Qed.

Lemma read_component_ModRM operands x f cs f' m :
  read_component operands x f = Returned cs f' → AModRM m ∈ cs → ModRM_checked m.
Proof.
  intros H Hm. which_branch H Hm.
  - injection Hm as ->. unfold ModRM_checked.
    pose proof (read_ModRM_fields _ _ _ H) as (Hlit & Hlink & Hreg).
    unfold read_ModRM, ok in H. invert_ok; simpl in *.
    all: repeat match goal with
           | H : operand_at _ _ = inr ?v |- _ =>
               apply operand_at_ok in H; destruct H as (? & ? & _ & _ & ->)
           end.
    all: split; [eexists; reflexivity|].
    all: split.
    all: try (left; apply Hlit; reflexivity).
    all: try (right; destruct (Hlink eq_refl) as (k & -> & ->); reflexivity).
    all: try (right; apply Hreg; reflexivity).
    all: left; eexists; reflexivity.
  - apply width_component in H as (v & Hv & _). subst. discriminate Hv.
Qed.

Lemma read_component_width operands x f cs f' c v :
  read_component operands x f = Returned cs f' → c ∈ cs → width_field c = Some v →
  is_reference v.
Proof.
  intros H Hc Hv. which_branch H Hc; subst; try discriminate Hv.
  apply width_component in H as (v' & Hv' & Href). congruence.
Qed.

(** ** Where the bits of REX and VEX come from *)

Lemma bit_literal_is_literal s v : bit_literal s = inr v → is_literal v.
Proof.
  unfold bit_literal, is_literal, ok. intros H. invert_ok; eauto.
Qed.

Lemma operand_at_is_reference operands s v : operand_at operands s = inr v → is_reference v.
Proof.
  rewrite operand_at_ok. intros (i & k & _ & _ & ->). exists k. reflexivity.
Qed.

(** Settles one conjunct of [one_source] or [B_source] from what [invert_ok]
    leaves. *)
Ltac close_source :=
  lazymatch goal with
  | |- is_literal _ =>
      first [ eapply bit_literal_is_literal; eassumption
            | right; eexists; reflexivity
            | left; reflexivity ]
  | |- is_reference _ => eapply operand_at_is_reference; eassumption
  | |- contains _ _ = _ => assumption
  end.

Ltac conj_close :=
  lazymatch goal with
  | |- _ ∧ _ => split; [close_source | conj_close]
  | |- _ => close_source
  end.

Ltac sources :=
  repeat match goal with
    | |- _ ∧ _ => split
    end;
  unfold one_source, B_source;
  first [ close_source
        | solve [left; conj_close]
        | solve [right; left; conj_close]
        | solve [right; right; conj_close]
        | solve [right; conj_close] ].

(** X6.  In a REX component that was read, W is a literal; R comes from
    exactly one of the attributes R and R-operand-number, X from exactly one
    of X and BX-operand-number, B from exactly one of B, B-operand-number and
    BX-operand-number; the bit is a literal (an integer, or [None] for
    "ignored") in the first case and an operand reference otherwise. *)
Theorem read_REX_sources operands a r :
  read_REX operands a = ok r →
  is_literal (REX.W r)
  ∧ one_source a "R" "R-operand-number" (REX.R r)
  ∧ B_source a (REX.B r)
  ∧ one_source a "X" "BX-operand-number" (REX.X r).
Proof.
  unfold read_REX, ok. intros H. invert_ok; simpl.
  all: sources.
Qed.

(** X7.  In a VEX component that was read, W and L are literals; R, B and X
    come from exactly one attribute each, as for REX; vvvv comes from exactly
    one of vvvv and vvvv-operand-number, and is 15 when it is literal. *)
Theorem read_VEX_sources operands rex a v :
  read_VEX operands rex a = ok v →
  is_literal (VEX.W v) ∧ is_literal (VEX.L v)
  ∧ one_source a "R" "R-operand-number" (VEX.R v)
  ∧ B_source a (VEX.B v)
  ∧ one_source a "X" "BX-operand-number" (VEX.X v)
  ∧ one_source a "vvvv" "vvvv-operand-number" (VEX.vvvv v)
  ∧ (contains a "vvvv" = true → VEX.vvvv v = PyInt 15).
Proof.
  unfold read_VEX, ok. intros H. invert_ok.
  all: repeat match goal with
         | H : match ?r with Some _ => _ | None => _ end = inr _ |- _ =>
             destruct r; invert_ok
         end.
  all: simpl.
  all: repeat match goal with
         | |- _ ∧ (_ → _) => split; [| intros Hv;
                                       first [ congruence
                                             | reflect_tests; subst;
                                               match goal with
                                               | H : int_base "1111" 2 = _ |- _ =>
                                                   vm_compute in H; congruence
                                               end ] ]
         | |- _ ∧ _ => split
         end.
  all: unfold one_source, B_source;
    first [ close_source
          | solve [left; conj_close]
          | solve [right; left; conj_close]
          | solve [right; right; conj_close]
          | solve [right; conj_close] ].
Qed.

(** ** Operand, implicit-operand and extension declarations *)

Lemma bool_of_attr_ok s b :
  bool_of_attr s = ok b ↔ (s = "true" ∧ b = true) ∨ (s = "false" ∧ b = false).
Proof.
  unfold bool_of_attr, ok. rewrite getitem_ok. split.
  - intros H.
    destruct (decide (s = "true")) as [->|Ht].
    { rewrite lookup_insert_eq in H. injection H as <-. auto. }
    rewrite lookup_insert_ne in H by congruence.
    destruct (decide (s = "false")) as [->|Hf].
    { rewrite lookup_insert_eq in H. injection H as <-. auto. }
    rewrite lookup_insert_ne, lookup_empty in H by congruence. discriminate.
  - intros [[-> ->]|[-> ->]]; reflexivity.
Qed.

Lemma flag_of_ok a k b :
  bool_of_attr (default "false" (a !! k)) = ok b ↔ flag_of a k b.
Proof.
  unfold flag_of. destruct (a !! k) as [s|]; simpl.
  - apply bool_of_attr_ok.
  - rewrite bool_of_attr_ok. split.
    + intros [[? _]|[_ ->]]; [discriminate | reflexivity].
    + intros ->. auto.
Qed.

Lemma read_operand_ok x o :
  read_operand x = ok o ↔
    attrib x !! "type" = Some (Operand.type o)
    ∧ flag_of (attrib x) "input" (Operand.is_input o)
    ∧ flag_of (attrib x) "output" (Operand.is_output o).
Proof.
  unfold read_operand. split.
  - intros H. unfold ok in H. invert_ok. simpl.
    split; [assumption|]. split; apply flag_of_ok; assumption.
  - intros (Ht & Hi & Ho). destruct o as [t i u]. simpl in *.
    apply flag_of_ok in Hi, Ho.
    rewrite (lookup_getitem _ _ _ Ht). simpl. rewrite Hi. simpl. rewrite Ho.
    reflexivity.
Qed.

Lemma read_isa_extension_ok x e :
  read_isa_extension x = ok e ↔ attrib x !! "id" = Some (ISAExtension.name e).
Proof.
  unfold read_isa_extension. split.
  - intros H. unfold ok in H. invert_ok. simpl. assumption.
  - intros H. destruct e as [n]. simpl in H.
    rewrite (lookup_contains _ _ _ H), (lookup_getitem _ _ _ H). reflexivity.
Qed.

Lemma read_implicit_operands_ok xs :
  ∀ inputs outputs ins outs,
    read_implicit_operands xs inputs outputs = ok (ins, outs) →
    Forall (fun x => is_Some (attrib x !! "input") ∧ is_Some (attrib x !! "output")) xs
    ∧ (∀ id, id ∈ ins ↔ id ∈ inputs ∨ ∃ x, x ∈ xs ∧ marks "input" id x)
    ∧ (∀ id, id ∈ outs ↔ id ∈ outputs ∨ ∃ x, x ∈ xs ∧ marks "output" id x).
Proof.
  induction xs as [|x xs IH]; intros inputs outputs ins outs H; simpl in H.
  - unfold ok in H. injection H as <- <-.
    split; [constructor|].
    split; intros id; (split; [auto | intros [?|(x & Hx & _)]; [assumption | inversion Hx]]).
  - unfold ok in H. invert_ok.
    all: match goal with
         | H : read_implicit_operands _ _ _ = inr _ |- _ =>
             apply IH in H; destruct H as (Hall & Hins & Houts)
         end.
    all: reflect_tests; subst.
    all: split; [constructor; [split; eexists; eassumption | assumption]|].
    all: split; intros id; [rewrite Hins | rewrite Houts].
    all: unfold marks; rewrite ?elem_of_union, ?elem_of_singleton.
    all: split;
      [ intros [[?|?]|(y & Hy & Hm)] || intros [?|(y & Hy & Hm)]
      | intros [?|(y & Hy & Hm)] ].
    all: try (left; assumption).
    all: try (left; left; assumption).
    all: try (right; exists y; split; [apply list_elem_of_further; assumption | assumption]).
    all: try (subst; right; exists x; split; [apply list_elem_of_here | split; assumption]).
    all: apply elem_of_cons in Hy as [->|Hy];
      try (right; exists y; split; assumption).
    all: destruct Hm as [Hm1 Hm2]; simplify_eq; auto.
    all: try congruence.
Qed.

Lemma read_REX_sources_witness :
  one_source (attrs [("mandatory", "false"); ("W", "0"); ("R-operand-number", "1");
                     ("BX-operand-number", "0")])
    "X" "BX-operand-number" (OperandRef 0).
Proof.
  apply (read_REX_sources [plain "m32"; plain "r32"]
           (attrs [("mandatory", "false"); ("W", "0"); ("R-operand-number", "1");
                   ("BX-operand-number", "0")])
           (REX.mk false (PyInt 0) (OperandRef 1) (OperandRef 0) (OperandRef 0))).
  vm_compute. reflexivity.
Defined.

Lemma read_VEX_sources_witness :
  one_source (attrs [("W", "0"); ("L", "ignored"); ("m-mmmm", "00001"); ("pp", "01");
                     ("R-operand-number", "0"); ("BX-operand-number", "1");
                     ("vvvv", "1111")])
    "vvvv" "vvvv-operand-number" (PyInt 15).
Proof.
  apply (read_VEX_sources [plain "xmm"; plain "m128"] None
           (attrs [("W", "0"); ("L", "ignored"); ("m-mmmm", "00001"); ("pp", "01");
                   ("R-operand-number", "0"); ("BX-operand-number", "1");
                   ("vvvv", "1111")])
           (VEX.mk 1 1 (PyInt 0) PyNone (OperandRef 0) (OperandRef 1) (OperandRef 1)
              (PyInt 15))).
  vm_compute. reflexivity.
Defined.

(** ** The components of a returned model *)

(** X8.  Every Prefix component of a returned model has byte 0x66, 0xF2 or
    0xF3. *)
Theorem prefix_bytes_of_a_model root model f p :
  load root = Returned model f → APrefix p ∈ components_of model →
  Prefix.byte p ∈ [102; 242; 243].
Proof.
  intros H Hp.
  destruct (load_components_read _ _ _ _ H Hp) as (ops & x & f1 & cs & f2 & _ & Hc & Hin).
  eapply read_component_Prefix; eassumption.
Qed.

Lemma prefix_bytes_of_a_model_witness : (102 : Z) ∈ [102; 242; 243].
Proof.
  apply (prefix_bytes_of_a_model
           (document [("gas-name", "op")] [] unknown_tag_components)
           (loaded "op" [] [APrefix (Prefix.mk 102 true); AnOpcode (Opcode.mk 15 PyNone)])
           (mkFrame None ["Unknown encoding tag: EVEX"])
           (Prefix.mk 102 true)).
  - vm_compute. reflexivity.
  - vm_compute. apply list_elem_of_here.
Defined.

(** X9.  Every ModRM component of a returned model has an operand for rm, has
    for mode either 3 or that same operand, and has for reg an operand or an
    integer in [0 .. 7]. *)
Theorem ModRM_of_a_model root model f m :
  load root = Returned model f → AModRM m ∈ components_of model → ModRM_checked m.
Proof.
  intros H Hm.
  destruct (load_components_read _ _ _ _ H Hm) as (ops & x & f1 & cs & f2 & _ & Hc & Hin).
  eapply read_component_ModRM; eassumption.
Qed.

Lemma ModRM_of_a_model_witness :
  ModRM_checked (ModRM.mk (OperandRef 1) (OperandRef 1) (OperandRef 0)).
Proof.
  apply (ModRM_of_a_model
           (document [("gas-name", "mov")] ["r32"; "m32"]
              [node "ModRM" [("mode-operand-number", "1"); ("rm-operand-number", "1");
                             ("reg-operand-number", "0")] []])
           (loaded "mov" [plain "r32"; plain "m32"]
              [AModRM (ModRM.mk (OperandRef 1) (OperandRef 1) (OperandRef 0))])
           entry).
  - vm_compute. reflexivity.
  - vm_compute. apply list_elem_of_here.
Defined.

(** X10.  The field of every immediate, code-offset and data-offset component
    of a returned model is an operand reference, never [None] or an
    integer. *)
Theorem width_components_of_a_model root model f c v :
  load root = Returned model f → c ∈ components_of model →
  width_field c = Some v → is_reference v.
Proof.
  intros H Hc Hv.
  destruct (load_components_read _ _ _ _ H Hc) as (ops & x & f1 & cs & f2 & _ & Hr & Hin).
  eapply read_component_width; eassumption.
Qed.

Lemma width_components_of_a_model_witness : is_reference (OperandRef 0).
Proof.
  apply (width_components_of_a_model
           (document [("gas-name", "jmp")] ["rel8"]
              [node "CodeOffset" [("size", "1"); ("operand-number", "0")] []])
           (loaded "jmp" [plain "rel8"] [CodeOffset8 (OperandRef 0)])
           entry (CodeOffset8 (OperandRef 0))).
  - vm_compute. reflexivity.
  - vm_compute. apply list_elem_of_here.
  - reflexivity.
Defined.

(** ** Operands, implicit operands and extensions of a form *)

(** X11.  The operand declarations read exactly when each has a type and has
    "true" or "false" for the input and output attributes it has; the
    operands then follow the declarations one for one, in order, each with
    the declared type and with a flag false where its attribute is absent. *)
Theorem operands_follow_declarations xs os :
  for_each read_operand xs = ok os ↔
    Forall2 (fun x o => attrib x !! "type" = Some (Operand.type o)
                        ∧ flag_of (attrib x) "input" (Operand.is_input o)
                        ∧ flag_of (attrib x) "output" (Operand.is_output o))
            xs os.
Proof.
  rewrite for_each_ok. split; intros H.
  - eapply Forall2_impl; [exact H|]. intros x o. apply read_operand_ok.
  - eapply Forall2_impl; [exact H|]. intros x o. apply read_operand_ok.
Qed.

Lemma operands_follow_declarations_witness :
  for_each read_operand
    [node "Operand" [("type", "r32"); ("input", "true")] [];
     node "Operand" [("type", "imm8")] []]
  = ok [Operand.mk "r32" true false; Operand.mk "imm8" false false].
Proof.
  apply operands_follow_declarations.
  repeat (constructor; [vm_compute; auto|]). constructor.
Defined.

(** X12.  The extension declarations read exactly when each has an id; the
    extensions then carry the ids one for one, in order, duplicates
    included. *)
Theorem extensions_follow_declarations xs es :
  for_each read_isa_extension xs = ok es ↔
    Forall2 (fun x e => attrib x !! "id" = Some (ISAExtension.name e)) xs es.
Proof.
  rewrite for_each_ok. split; intros H.
  - eapply Forall2_impl; [exact H|]. intros x e. apply read_isa_extension_ok.
  - eapply Forall2_impl; [exact H|]. intros x e. apply read_isa_extension_ok.
Qed.

Lemma extensions_follow_declarations_witness :
  for_each read_isa_extension
    [node "Extension" [("id", "AVX")] []; node "Extension" [("id", "FMA3")] [];
     node "Extension" [("id", "AVX")] []]
  = ok [ISAExtension.mk "AVX"; ISAExtension.mk "FMA3"; ISAExtension.mk "AVX"].
Proof.
  apply extensions_follow_declarations.
  repeat (constructor; [vm_compute; reflexivity|]). constructor.
Defined.

(** X13.  When the implicit-operand declarations read, each of them has the
    input and the output attribute (a missing one raises, unlike for an
    explicit operand), and the implicit inputs (outputs) of the form are
    exactly the ids of the declarations whose input (output) attribute is
    "true". *)
Theorem implicit_operands_are_the_marked_ids xs ins outs :
  read_implicit_operands xs ∅ ∅ = ok (ins, outs) →
  Forall (fun x => is_Some (attrib x !! "input") ∧ is_Some (attrib x !! "output")) xs
  ∧ (∀ id, id ∈ ins ↔ ∃ x, x ∈ xs ∧ marks "input" id x)
  ∧ (∀ id, id ∈ outs ↔ ∃ x, x ∈ xs ∧ marks "output" id x).
Proof.
  intros H. apply read_implicit_operands_ok in H as (Hall & Hins & Houts).
  split; [exact Hall|].
  split; intros id; [rewrite Hins | rewrite Houts].
  all: split; [intros [Hin|?]; [|assumption] | auto].
  all: exfalso; exact (not_elem_of_empty id Hin).
Qed.

Lemma implicit_operands_are_the_marked_ids_witness :
  ∃ x, x ∈ [node "ImplicitOperands" [("id", "rax"); ("input", "true");
                                      ("output", "false")] []]
       ∧ marks "input" "rax" x.
Proof.
  destruct (implicit_operands_are_the_marked_ids
              [node "ImplicitOperands" [("id", "rax"); ("input", "true");
                                        ("output", "false")] []]
              {["rax"]} ∅) as (_ & Hins & _).
  - vm_compute. reflexivity.
  - apply Hins. apply elem_of_singleton. reflexivity.
Defined.

(** ** The document as a whole *)

(** X14.  A returned model follows the document: one instruction for each
    child of the root, in order, with its name and summary; one form for each
    child of the instruction declaration, in order, named after the
    instruction, with the display names and modes of its attributes, with
    the operands, implicit operands and extensions its declarations read to;
    one encoding for each encoding declaration, with one component for each
    component declaration of a known tag. *)
Theorem load_follows_the_document root model f :
  load root = Returned model f →
  tag root = "InstructionSet" ∧ attrib root !! "name" = Some "x86-64"
  ∧ Forall2 instruction_of (children root) model.
Proof.
  intros H. apply load_returned in H as (Htag & Hname & H).
  split; [exact Htag|]. split; [exact Hname|].
  eapply for_in_Forall2; [|exact H].
  intros x f1 zs f2 Hx.
  destruct (read_instruction_returned _ _ _ _ Hx) as (i & -> & Hi & _). eauto.
Qed.

Lemma load_follows_the_document_witness :
  Forall2 instruction_of (children no_go_name_document)
    (loaded "movl" [plain "r32"] [AnOpcode (Opcode.mk 144 PyNone)]).
Proof.
  apply (load_follows_the_document no_go_name_document
           (loaded "movl" [plain "r32"] [AnOpcode (Opcode.mk 144 PyNone)]) entry).
  vm_compute. reflexivity.
Defined.

(** X15.  What a load that returns has printed is one line for each component
    declaration of unknown tag, in document order, and nothing else. *)
Theorem load_prints_the_unknown_tags root model f :
  load root = Returned model f →
  stdout f = printed_by (component_declarations root).
Proof.
  intros H. apply load_returned in H as (_ & _ & H).
  exact (for_in_printed
           (fun i => fx ← children i; e ← findall "Encodings" "Encoding" fx; children e)
           _ _ read_instruction_printed _ _ _ H).
Qed.

Lemma load_prints_the_unknown_tags_witness :
  ["Unknown encoding tag: EVEX"]
  = printed_by (component_declarations
                  (document [("gas-name", "op")] [] unknown_tag_components)).
Proof.
  apply (load_prints_the_unknown_tags
           (document [("gas-name", "op")] [] unknown_tag_components)
           (loaded "op" [] [APrefix (Prefix.mk 102 true); AnOpcode (Opcode.mk 15 PyNone)])
           (mkFrame None ["Unknown encoding tag: EVEX"])).
  vm_compute. reflexivity.
Defined.

(** X16.  The root must be an InstructionSet element named x86-64, and every
    child of it an Instruction element with a name and a summary: another
    root tag or name fails an assertion, a root without name raises
    [KeyError], a child that is no Instruction or lacks name or summary aborts
    the load; a valid root without children loads as the empty list. *)
Theorem root_and_instructions_are_validated root :
  (tag root ≠ "InstructionSet" → load root = Raised AssertionError [])
  ∧ (tag root = "InstructionSet" → attrib root !! "name" = None →
     load root = Raised KeyError [])
  ∧ (tag root = "InstructionSet" →
     ∀ n, attrib root !! "name" = Some n → n ≠ "x86-64" →
          load root = Raised AssertionError [])
  ∧ (∀ i, i ∈ children root →
          tag i ≠ "Instruction" ∨ attrib i !! "name" = None
          ∨ attrib i !! "summary" = None →
          aborted (load root))
  ∧ (tag root = "InstructionSet" → attrib root !! "name" = Some "x86-64" →
     children root = [] → load root = Returned [] entry).
Proof.
  unfold load, read_instruction_set, has_tag, bind, lift, getitem.
  split; [|split; [|split; [|split]]].
  - intros H. apply String.eqb_neq in H. rewrite H. reflexivity.
  - intros -> ->. reflexivity.
  - intros -> n -> Hn. apply String.eqb_neq in Hn. simpl. rewrite Hn. reflexivity.
  - intros i Hi Hbad. apply aborted_not_returned. intros model f H.
    change (load root = Returned model f) in H.
    apply load_returned in H as (_ & _ & H).
    destruct (for_in_returned _ _ _ _ _ H i Hi) as (f1 & y & f2 & Hri & _).
    destruct (read_instruction_returned _ _ _ _ Hri)
      as (i' & _ & (Htag & Hname & (s & Hsum & _) & _) & _).
    destruct Hbad as [Hbad|[Hbad|Hbad]]; congruence.
  - intros -> -> ->. reflexivity.
Qed.

Lemma root_and_instructions_are_validated_witness :
  load (node "Instructions" [("name", "x86-64")] []) = Raised AssertionError []
  ∧ load (node "InstructionSet" [] []) = Raised KeyError []
  ∧ load (node "InstructionSet" [("name", "x86")] []) = Raised AssertionError []
  ∧ aborted (load (node "InstructionSet" [("name", "x86-64")]
                     [node "Instruction" [("name", "NOP")] []]))
  ∧ load (node "InstructionSet" [("name", "x86-64")] []) = Returned [] entry.
Proof.
  split; [|split; [|split; [|split]]].
  - apply (proj1 (root_and_instructions_are_validated
                    (node "Instructions" [("name", "x86-64")] []))).
    discriminate.
  - apply (proj1 (proj2 (root_and_instructions_are_validated
                           (node "InstructionSet" [] [])))); reflexivity.
  - apply (proj1 (proj2 (proj2 (root_and_instructions_are_validated
                                  (node "InstructionSet" [("name", "x86")] []))))
             eq_refl "x86"); [reflexivity | discriminate].
  - apply (proj1 (proj2 (proj2 (proj2 (root_and_instructions_are_validated
             (node "InstructionSet" [("name", "x86-64")]
                [node "Instruction" [("name", "NOP")] []])))))
             (node "Instruction" [("name", "NOP")] [])).
    + apply list_elem_of_here.
    + right. right. vm_compute. reflexivity.
  - apply (proj2 (proj2 (proj2 (proj2 (root_and_instructions_are_validated
             (node "InstructionSet" [("name", "x86-64")] []))))));
      reflexivity.
Defined.

(** ** The components of one encoding *)

(** X17.  The components of an encoding that was read pair up, in order,
    with its component declarations of known tag: each is the one component
    that the loop body appends for its declaration. *)
Theorem components_follow_declarations operands xs :
  ∀ f cs f',
    for_in (read_component operands) xs f = Returned cs f' →
    Forall2 (fun x c => ∃ f1 f2, read_component operands x f1 = Returned [c] f2)
            (List.filter known_tag xs) cs.
Proof.
  induction xs as [|x xs IH]; intros f cs f' H; simpl in H; invert_returned.
  - constructor.
  - simpl. destruct (known_tag x) eqn:Hk.
    + match goal with
      | H1 : read_component _ x _ = Returned _ _ |- _ =>
          destruct (known_tag_one_component _ _ _ _ _ Hk H1) as [[c ->] _];
          simpl; constructor; [eauto|]
      end.
      eapply IH. eassumption.
    + match goal with
      | H1 : read_component _ x _ = Returned _ _ |- _ =>
          rewrite (unknown_tag_skipped _ _ _ Hk) in H1; injection H1 as <- <-
      end.
      simpl. eapply IH. eassumption.
Qed.

Lemma components_follow_declarations_witness :
  Forall2 (fun x c => ∃ f1 f2, read_component [] x f1 = Returned [c] f2)
    (List.filter known_tag unknown_tag_components)
    [APrefix (Prefix.mk 102 true); AnOpcode (Opcode.mk 15 PyNone)].
Proof.
  apply (components_follow_declarations [] unknown_tag_components entry
           [APrefix (Prefix.mk 102 true); AnOpcode (Opcode.mk 15 PyNone)]
           (mkFrame None ["Unknown encoding tag: EVEX"])).
  vm_compute. reflexivity.
Defined.

(** ** String representations *)

Lemma append_cancel (s t1 t2 : string) : s ++ t1 = s ++ t2 → t1 = t2.
Proof.
  induction s as [|c s IH]; simpl; intros H; [exact H|].
  injection H as H. auto.
Qed.

(** X18.  The text of an operand tells the operand: two operands whose types
    do not begin with a bracket, as none of the documented types does, and
    that print alike are equal. *)
Theorem Operand_str_tells_the_operand (o1 o2 : Operand.t) :
  bracketed (Operand.type o1) = false → bracketed (Operand.type o2) = false →
  Operand_str o1 = Operand_str o2 → o1 = o2.
Proof.
  destruct o1 as [t1 i1 u1], o2 as [t2 i2 u2]. unfold Operand_str. simpl.
  intros H1 H2 H.
  destruct i1, u1, i2, u2; simpl in H;
    try (injection H as ->; reflexivity);
    try discriminate H;
    try (subst; simpl in *; congruence).
  all: apply append_cancel in H; subst; reflexivity.
Qed.

Lemma Operand_str_tells_the_operand_witness :
  Operand.mk "r32" true false = Operand.mk "r32" true false.
Proof.
  apply Operand_str_tells_the_operand; reflexivity.
Defined.
